(** * standardize_HPO_symptom: mapping free-text symptoms to HPO terms

    A shallow embedding of [standardize_HPO_symptom.py] and the properties
    of its search client, similarity scorer, ontology resolvers and
    matching pipeline.

    Python values are a small tagged union, exceptions are explicit
    outcomes, and the two pieces of process state the module has (the
    number of times the ontology file was read, and the [lru_cache] slot
    of [load_graph]) are threaded through a state-and-exception monad.
    The [while True] loop of [get_rank_and_path] runs on fuel. *)

From Stdlib Require Import ZArith List String Ascii Bool Lia.
Import ListNotations.

Set Warnings "-register-all".

Open Scope string_scope.
Open Scope list_scope.
Open Scope Z_scope.

(* ================================================================== *)
(** ** Python values and exceptions *)

(** The values the module handles: [None], JSON data decoded by
    [response.json()] and strings.  JSON numbers are kept as integers; a
    fractional number behaves like [PInt] in every operation used here. *)
Inductive pyval : Type :=
| PNone
| PBool (b : bool)
| PInt (z : Z)
| PStr (s : string)
| PList (l : list pyval)
| PDict (d : list (string * pyval)).

(** Exception classes that can arise.  The first four are the classes of
    [requests.exceptions]; [JSONDecodeError] derives from both
    [RequestException] and [ValueError]. *)
Inductive exn : Type :=
| ConnectionError
| Timeout
| HTTPError
| JSONDecodeError
| ValueError (msg : string)
| KeyError
| IndexError
| TypeError
| AttributeError
| OSError.

(** [isinstance(e, requests.exceptions.RequestException)] *)
Definition is_RequestException (e : exn) : bool :=
  match e with
  | ConnectionError | Timeout | HTTPError | JSONDecodeError => true
  | _ => false
  end.

(** [isinstance(e, ValueError)] *)
Definition is_ValueError (e : exn) : bool :=
  match e with
  | JSONDecodeError | ValueError _ => true
  | _ => false
  end.

(** What running a piece of Python can do: return a value, raise, or (for
    the fuelled loop only) still be running when the fuel is spent. *)
Inductive outcome (A : Type) : Type :=
| Returns (a : A)
| Raises (e : exn)
| OutOfFuel.
Arguments Returns {A} a.
Arguments Raises {A} e.
Arguments OutOfFuel {A}.

Definition obind {A B} (o : outcome A) (k : A -> outcome B) : outcome B :=
  match o with
  | Returns a => k a
  | Raises e => Raises e
  | OutOfFuel => OutOfFuel
  end.

Declare Scope outcome_scope.
Delimit Scope outcome_scope with outcome.
Notation "x <~ c ;; k" := (obind c (fun x => k))
  (at level 61, c at next level, right associativity) : outcome_scope.

(** Truth value of a Python object, as tested by [if results:] *)
Definition truthy (v : pyval) : bool :=
  match v with
  | PNone => false
  | PBool b => b
  | PInt z => negb (z =? 0)
  | PStr s => negb (String.eqb s "")
  | PList l => match l with [] => false | _ => true end
  | PDict d => match d with [] => false | _ => true end
  end.

Definition is_None (v : pyval) : bool :=
  match v with PNone => true | _ => false end.

(** [isinstance(v, str)] *)
Definition is_str (v : pyval) : bool :=
  match v with PStr _ => true | _ => false end.

(** Lookup in a dict with string keys (first binding wins). *)
Fixpoint dict_lookup {A} (d : list (string * A)) (k : string) : option A :=
  match d with
  | [] => None
  | (k', v) :: d' => if String.eqb k' k then Some v else dict_lookup d' k
  end.

(** [v.get(k, default)]: only a dict has the method. *)
Definition py_get (v : pyval) (k : string) (default : pyval) : outcome pyval :=
  match v with
  | PDict d => Returns (match dict_lookup d k with Some x => x | None => default end)
  | _ => Raises AttributeError
  end.

(** [v[0]] *)
Definition py_index0 (v : pyval) : outcome pyval :=
  match v with
  | PList (x :: _) => Returns x
  | PList [] => Raises IndexError
  | PStr (String c _) => Returns (PStr (String c ""))
  | PStr EmptyString => Raises IndexError
  | PDict _ => Raises KeyError   (* decoded JSON objects have string keys only *)
  | PNone | PBool _ | PInt _ => Raises TypeError
  end.

(** [v[k]] for a string key [k] *)
Definition py_item (v : pyval) (k : string) : outcome pyval :=
  match v with
  | PDict d => match dict_lookup d k with Some x => Returns x | None => Raises KeyError end
  | _ => Raises TypeError
  end.

(** [s.lower()] on ASCII text: the case folding the examples below run
    with.  Python's [str.lower] itself, which also folds the letters
    outside ASCII, is a parameter of the model ([str_lower]). *)
Definition ascii_lower (c : ascii) : ascii :=
  let n := nat_of_ascii c in
  if (Nat.leb 65 n && Nat.leb n 90)%bool then ascii_of_nat (n + 32) else c.

Fixpoint lower (s : string) : string :=
  match s with
  | EmptyString => EmptyString
  | String c s' => String (ascii_lower c) (lower s')
  end.

(** [x in l] for a list of strings *)
Definition str_in (x : string) (l : list string) : bool :=
  existsb (String.eqb x) l.

(* ================================================================== *)
(** ** The ontology graph *)

(** Attributes of one node, as the code reads them with [.get]:
    [None] is a key that is not in the node's attribute dict. *)
Record node_attrs : Type := {
  attr_name : option string;
  attr_synonyms : option (list string);
  attr_def : option string;
  attr_is_a : option (list string)
}.

(** The graph's node dict ([graph.nodes]), in insertion order: the order is
    what [graph.nodes(data=True)] iterates in. *)
Definition Graph : Type := list (string * node_attrs).

Definition HPO_ROOT : string := "HP:0000001".

(** Python objects that cannot be dict keys. *)
Definition hashable (v : pyval) : bool :=
  match v with
  | PList _ | PDict _ => false
  | _ => true
  end.

(** The node stored under [v], if any: node keys are strings. *)
Definition node_of (graph : Graph) (v : pyval) : option node_attrs :=
  match v with
  | PStr i => dict_lookup graph i
  | _ => None
  end.

(** [d.get(k, default)] on a node's attributes *)
Definition attr_get {A} (field : option A) (default : A) : A :=
  match field with Some x => x | None => default end.

(* ================================================================== *)
(** ** Step 1: the term search client *)

(** What [requests.get] hands back: a response with its status code and,
    when the body parses as JSON, the decoded body. *)
Record Response : Type := {
  status_code : Z;
  json_body : option pyval
}.

(** Failures of [requests.get] itself. *)
Inductive transport_error : Type :=
| ConnFailed
| TimedOut.

Definition transport_exn (t : transport_error) : exn :=
  match t with
  | ConnFailed => ConnectionError
  | TimedOut => Timeout
  end.

(** [response.raise_for_status()]: raises on 4xx and 5xx. *)
Definition raise_for_status (r : Response) : outcome unit :=
  if ((400 <=? status_code r) && (status_code r <? 600))%bool
  then Raises HTTPError else Returns tt.

(** [response.json()] *)
Definition response_json (r : Response) : outcome pyval :=
  match json_body r with
  | Some v => Returns v
  | None => Raises JSONDecodeError
  end.

Definition search_url (symptom : string) : string :=
  ("https://ontology.jax.org/api/hp/search/?q=" ++ symptom)%string.

(** The module's process state: how many times [obonet.read_obo] has read
    the ontology file, and the single slot of [load_graph]'s [lru_cache]. *)
Record process_state : Type := {
  obo_reads : nat;
  load_graph_cache : option Graph
}.

Definition fresh_process : process_state :=
  {| obo_reads := 0; load_graph_cache := None |}.

(** Computations over the process state that may raise. *)
Definition M (A : Type) : Type := process_state -> outcome A * process_state.

Definition ret {A} (a : A) : M A := fun st => (Returns a, st).

Definition raise {A} (e : exn) : M A := fun st => (Raises e, st).

Definition bind {A B} (m : M A) (k : A -> M B) : M B :=
  fun st =>
    match m st with
    | (Returns a, st') => k a st'
    | (Raises e, st') => (Raises e, st')
    | (OutOfFuel, st') => (OutOfFuel, st')
    end.

(** A computation that does not touch the process state. *)
Definition lift {A} (o : outcome A) : M A := fun st => (o, st).

Declare Scope py_scope.
Delimit Scope py_scope with py.
Notation "x <- c ;; k" := (bind c (fun x => k))
  (at level 61, c at next level, right associativity) : py_scope.
Notation "' pat <- c ;; k" := (bind c (fun x => match x with pat => k end))
  (at level 61, pat pattern, c at next level, right associativity) : py_scope.

Definition opt_str (o : option string) : pyval :=
  match o with Some s => PStr s | None => PNone end.

Definition opt_int (o : option Z) : pyval :=
  match o with Some z => PInt z | None => PNone end.

Section World.

(** The remote search service, as seen through [requests.get(url, timeout=10)]. *)
Variable requests_get : string -> transport_error + Response.

(** The body of the [try] block. *)
Definition map_symptoms_to_hpo_try (symptom : string) : outcome (pyval * pyval) :=
  (match requests_get (search_url symptom) with
   | inl t => Raises (transport_exn t)
   | inr response =>
       _ <~ raise_for_status response ;;
       json_data <~ response_json response ;;
       results <~ py_get json_data "terms" (PList []) ;;
       if truthy results then
         top <~ py_index0 results ;;
         name <~ py_item top "name" ;;
         id <~ py_item top "id" ;;
         Returns (name, id)
       else Returns (PNone, PNone)
   end)%outcome.

(** [map_symptoms_to_hpo]: the [try] block under its two [except] clauses. *)
Definition map_symptoms_to_hpo (symptom : string) : outcome (pyval * pyval) :=
  match map_symptoms_to_hpo_try symptom with
  | Raises e =>
      if is_RequestException e then Returns (PNone, PNone)
      else if is_ValueError e then Returns (PNone, PNone)
      else Raises e
  | r => r
  end.

(** *** Step 2: the similarity scorer *)

(** The score [fuzzywuzzy.process.extractOne] gives a query against one
    choice (default processor and scorer).  The default processing turns
    a choice that is not a string into one with [str], so every choice has
    a score. *)
Variable extractOne_score : string -> pyval -> Z.

(** [process.extractOne(query, [choice])]: the single choice comes back
    with its score. *)
Definition extractOne (query : string) (choice : pyval) : outcome (pyval * Z) :=
  Returns (choice, extractOne_score query choice).

Definition estimate_fuzzy_score (input_term hpo_term : pyval) : outcome Z :=
  match input_term with
  | PStr q =>
      (r <~ extractOne q hpo_term ;;
       let '(best_match_fuzzy, fuzzy_score) := r in
       Returns fuzzy_score)%outcome
  | _ => Raises (ValueError "reported_term must be a string.")
  end.

(** *** Step 3: synonyms and definition *)

(** The ontology file as [obonet.read_obo] finds it on its n-th read of
    the process: a parsed graph, or the error the read raises. *)
Variable obo_source : nat -> exn + Graph.

(** [obonet.read_obo(url)]: every call reads the file again. *)
Definition read_obo : M Graph :=
  fun st =>
    let st' := {| obo_reads := S (obo_reads st);
                  load_graph_cache := load_graph_cache st |} in
    match obo_source (obo_reads st) with
    | inr graph => (Returns graph, st')
    | inl e => (Raises e, st')
    end.

Definition get_hpo_definitions_and_synonyms (hpo_id : pyval)
  : M (option (list string) * option string) :=
  (graph <- read_obo ;;
   if hashable hpo_id then
     match node_of graph hpo_id with
     | Some nd =>
         let synonyms := attr_get (attr_synonyms nd) [] in
         let definition := attr_get (attr_def nd) "NA" in
         ret (Some synonyms, Some definition)
     | None => ret (None, None)
     end
   else raise TypeError)%py.

(** *** Step 4: lineage *)

(** [load_graph] under [@lru_cache(maxsize=1)]: a hit returns the cached
    graph; a miss reads the file and, when the read returns, fills the
    slot. *)
Definition load_graph : M Graph :=
  fun st =>
    match load_graph_cache st with
    | Some graph => (Returns graph, st)
    | None =>
        match read_obo st with
        | (Returns graph, st') =>
            (Returns graph,
             {| obo_reads := obo_reads st'; load_graph_cache := Some graph |})
        | r => r
        end
    end.

(** The [while True] loop of [get_rank_and_path], one iteration per unit
    of fuel; it returns [depth] and [path] as they are at the [break]. *)
Fixpoint rank_path_loop (fuel : nat) (graph : Graph) (current : pyval)
         (path : list pyval) (depth : Z) : outcome (Z * list pyval) :=
  match fuel with
  | O => OutOfFuel
  | S fuel' =>
      match node_of graph current with
      | None => Raises KeyError
      | Some nd =>
          match attr_get (attr_is_a nd) [] with
          | [] => Returns (depth, path)
          | p :: _ =>
              if String.eqb p HPO_ROOT
              then Returns (depth + 1, path ++ [PStr p])
              else rank_path_loop fuel' graph (PStr p) (path ++ [PStr p]) (depth + 1)
          end
      end
  end.

Definition get_rank_and_path (fuel : nat) (hpo_id : pyval)
  : M (option Z * list pyval) :=
  (graph <- load_graph ;;
   match node_of graph hpo_id with
   | None => ret (None, [])
   | Some _ =>
       r <- lift (rank_path_loop fuel graph hpo_id [hpo_id] 0) ;;
       let '(depth, path) := r in
       ret (Some depth, rev path)
   end)%py.

(** *** The pipeline *)

(** Python's [str.lower]. *)
Variable str_lower : string -> string.

(** [hpo_term.lower() in [s.lower() for s in synonyms]] *)
Definition term_in_synonyms (hpo_term : pyval) (synonyms : option (list string))
  : outcome bool :=
  match hpo_term with
  | PStr t =>
      match synonyms with
      | Some l => Returns (str_in (str_lower t) (map str_lower l))
      | None => Raises TypeError
      end
  | _ => Raises AttributeError
  end.

(** The condition of step 5; [or] evaluates its right operand only when
    the left one is false. *)
Definition match_is_acceptable (fuzzy_score : Z) (hpo_term : pyval)
           (synonyms : option (list string)) : outcome bool :=
  if 80 <=? fuzzy_score then Returns true
  else term_in_synonyms hpo_term synonyms.

Definition map_symptoms_to_hpo_pipeline (fuel : nat) (symptom : string)
  : M (list pyval) :=
  (c <- lift (map_symptoms_to_hpo symptom) ;;
   let '(hpo_term, hpo_id) := c in
   if (is_None hpo_term || is_None hpo_id)%bool then
     ret [PStr symptom; PNone; PNone; PInt 0; PStr "not matched"]
   else
     fuzzy_score <- lift (estimate_fuzzy_score (PStr symptom) hpo_term) ;;
     sd <- get_hpo_definitions_and_synonyms hpo_id ;;
     let '(synonyms, definition) := sd in
     rp <- get_rank_and_path fuel hpo_id ;;
     let '(rank, path) := rp in
     ok <- lift (match_is_acceptable fuzzy_score hpo_term synonyms) ;;
     if ok : bool then
       ret [PStr symptom; hpo_term; hpo_id; opt_str definition; opt_int rank;
            PList path; PInt fuzzy_score; PStr "matched"]
     else
       ret [PStr symptom; hpo_term; hpo_id; opt_str definition; opt_int rank;
            PList path; PInt fuzzy_score; PStr "not matched"])%py.

(** *** Helpers: term/id lookup *)

Definition get_hpo_id_from_term (hpo_term : string) : M (option string) :=
  (graph <- read_obo ;;
   ret (option_map fst
          (find (fun nd => String.eqb (str_lower (attr_get (attr_name (snd nd)) ""))
                                      (str_lower hpo_term))
                graph)))%py.

Definition get_hpo_term_from_id (hpo_id : pyval) : M (option string) :=
  (graph <- read_obo ;;
   if hashable hpo_id then
     match node_of graph hpo_id with
     | Some nd => ret (attr_name nd)
     | None => ret None
     end
   else raise TypeError)%py.

(** The statements at module level: the demonstration lookup that runs
    when the module is loaded, returning the line it prints. *)
Definition module_body : M string :=
  (hpo_term <- get_hpo_term_from_id (PStr "HP:0025142") ;;
   ret ("HPO ID: HP:0025142 -> HPO Term: "
          ++ match hpo_term with Some t => t | None => "None" end)%string)%py.

End World.

(* ================================================================== *)
(** ** Running several calls in a row *)

(** The process state after [n] consecutive calls of [m]; the results are
    dropped and a call that raises leaves the process running. *)
Fixpoint after_calls {A} (n : nat) (m : M A) (st : process_state) : process_state :=
  match n with
  | O => st
  | S n' => after_calls n' m (snd (m st))
  end.

(** The process state after the calls [ms], made one after the other. *)
Fixpoint after_sequence {A} (ms : list (M A)) (st : process_state) : process_state :=
  match ms with
  | [] => st
  | m :: ms' => after_sequence ms' (snd (m st))
  end.

(** A node with every listed parent but the first removed. *)
Definition keep_first_parent (nd : node_attrs) : node_attrs :=
  {| attr_name := attr_name nd;
     attr_synonyms := attr_synonyms nd;
     attr_def := attr_def nd;
     attr_is_a := match attr_is_a nd with
                  | Some (p :: _) => Some [p]
                  | other => other
                  end |}.

(** The graph with every node reduced to its first parent. *)
Definition first_parents_only (graph : Graph) : Graph :=
  map (fun kv => (fst kv, keep_first_parent (snd kv))) graph.

(** An ontology source seen through a transformation of the parsed graph. *)
Definition map_source (f : Graph -> Graph) (obo_source : nat -> exn + Graph)
  : nat -> exn + Graph :=
  fun n => match obo_source n with
           | inr graph => inr (f graph)
           | inl e => inl e
           end.

(* ================================================================== *)
(** ** Vocabulary for the lineage properties *)

(** The first listed [is_a] parent of a node, if it has one. *)
Definition first_parent (graph : Graph) (v : pyval) : option pyval :=
  match node_of graph v with
  | Some nd =>
      match attr_get (attr_is_a nd) [] with
      | p :: _ => Some (PStr p)
      | [] => None
      end
  | None => None
  end.

(** A node of the graph whose [is_a] is missing or empty. *)
Definition parentless (graph : Graph) (v : pyval) : Prop :=
  exists nd, node_of graph v = Some nd /\ attr_get (attr_is_a nd) [] = [].

(** [hops graph v chain]: [chain] lists the nodes visited after [v] when
    following first parents, up to and including the first one that is the
    root or has no parent. *)
Inductive hops (graph : Graph) : pyval -> list pyval -> Prop :=
| hops_parentless v :
    parentless graph v -> hops graph v []
| hops_root v :
    first_parent graph v = Some (PStr HPO_ROOT) ->
    hops graph v [PStr HPO_ROOT]
| hops_step v p chain :
    first_parent graph v = Some p ->
    p <> PStr HPO_ROOT ->
    hops graph p chain ->
    hops graph v (p :: chain).

(** Following first parents from [v] eventually reaches the root or a node
    with no parent. *)
Inductive reaches_stop (graph : Graph) : pyval -> Prop :=
| stop_parentless v :
    parentless graph v -> reaches_stop graph v
| stop_root v :
    first_parent graph v = Some (PStr HPO_ROOT) -> reaches_stop graph v
| stop_later v p :
    first_parent graph v = Some p ->
    reaches_stop graph p ->
    reaches_stop graph v.

(** The node [n] first-parent hops above [v], when every hop on the way
    exists. *)
Fixpoint nth_parent (graph : Graph) (n : nat) (v : pyval) : option pyval :=
  match n with
  | O => Some v
  | S n' =>
      match first_parent graph v with
      | Some p => nth_parent graph n' p
      | None => None
      end
  end.

(** No node is its own ancestor along first parents. *)
Definition first_parent_acyclic (graph : Graph) : Prop :=
  forall v n, nth_parent graph (S n) v <> Some v.

(** What a returned lineage [(rank, path)] of [hpo_id] looks like: the path
    is not empty, ends with [hpo_id], starts at the root or at a parentless
    node, links every element to the one before it as its first parent,
    passes through no root between its two ends, and has [rank + 1]
    elements. *)
Definition lineage_shape (graph : Graph) (hpo_id : pyval)
           (rank : option Z) (path : list pyval) : Prop :=
  path <> []
  /\ last path PNone = hpo_id
  /\ (exists first,
         hd_error path = Some first
         /\ (first = PStr HPO_ROOT \/ parentless graph first))
  /\ (forall l1 a b l2,
         path = l1 ++ a :: b :: l2 ->
         first_parent graph b = Some a
         /\ (l2 <> [] -> b <> PStr HPO_ROOT))
  /\ rank = Some (Z.of_nat (List.length path) - 1).

(* ================================================================== *)
(** ** Concrete ontologies, services and scorers *)

Definition example_graph : Graph :=
  [ ("HP:0000001",
     {| attr_name := Some "All"; attr_synonyms := None;
        attr_def := None; attr_is_a := None |});
    ("HP:0000118",
     {| attr_name := Some "Phenotypic abnormality";
        attr_synonyms := Some ["Organ abnormality"];
        attr_def := None; attr_is_a := Some ["HP:0000001"] |});
    ("HP:0000478",
     {| attr_name := Some "Abnormality of the eye";
        attr_synonyms := Some ["Abnormal eye"; "Eye disease"];
        attr_def := Some "Any abnormality of the eye.";
        attr_is_a := Some ["HP:0000118"] |});
    ("HP:0000508",
     {| attr_name := Some "Ptosis";
        attr_synonyms := Some ["Blepharoptosis"; "Drooping upper eyelid"; "PTOSIS"];
        attr_def := Some "The upper eyelid margin is positioned lower than usual.";
        attr_is_a := Some ["HP:0000478"; "HP:0000118"] |}) ].

(** Two terms that name each other as first parent. *)
Definition cyclic_graph : Graph :=
  [ ("HP:0000002",
     {| attr_name := Some "A"; attr_synonyms := None;
        attr_def := None; attr_is_a := Some ["HP:0000003"] |});
    ("HP:0000003",
     {| attr_name := Some "B"; attr_synonyms := None;
        attr_def := None; attr_is_a := Some ["HP:0000002"] |}) ].

Definition term_entry (name id : string) : pyval :=
  PDict [("name", PStr name); ("id", PStr id)].

Definition terms_body (terms : list pyval) : pyval :=
  PDict [("terms", PList terms)].

(** A search service that answers every query with status 200 and [body]. *)
Definition service_answering (body : pyval) : string -> transport_error + Response :=
  fun _ => inr {| status_code := 200; json_body := Some body |}.

(** A scorer that gives every pair the same score. *)
Definition score_always (z : Z) : string -> pyval -> Z := fun _ _ => z.

(** An ontology file that every read finds and parses as [graph]. *)
Definition obo_always (graph : Graph) : nat -> exn + Graph := fun _ => inr graph.

(** The record the pipeline returns for a candidate it has classified. *)
Definition match_record (symptom term : string) (hpo_id : pyval)
           (definition : option string) (rank : option Z) (path : list pyval)
           (fuzzy_score : Z) (status : string) : list pyval :=
  [PStr symptom; PStr term; hpo_id; opt_str definition; opt_int rank;
   PList path; PInt fuzzy_score; PStr status].

(** The record the specification gives for a symptom with no candidate. *)
Definition no_candidate_record (symptom : string) : list pyval :=
  [PStr symptom; PNone; PNone; PNone; PNone; PList []; PInt 0; PStr "not matched"].

(* ================================================================== *)
(** ** Properties of the term search client *)

Lemma py_index0_terminates (v : pyval) : py_index0 v <> OutOfFuel.
Proof.
  destruct v as [ | b | z | s | l | d]; cbn; try discriminate.
  - destruct s; discriminate.
  - destruct l; discriminate.
Qed.

Lemma py_item_terminates (v : pyval) (k : string) : py_item v k <> OutOfFuel.
Proof.
  destruct v as [ | b | z | s | l | d]; cbn; try discriminate.
  destruct (dict_lookup d k); discriminate.
Qed.

Section SearchClientFacts.

Variable requests_get : string -> transport_error + Response.
Variable symptom : string.

Lemma search_transport_error (t : transport_error) :
  requests_get (search_url symptom) = inl t ->
  map_symptoms_to_hpo requests_get symptom = Returns (PNone, PNone).
Proof.
  intros H. unfold map_symptoms_to_hpo, map_symptoms_to_hpo_try.
  rewrite H. destruct t; reflexivity.
Qed.

Lemma search_http_error (r : Response) :
  requests_get (search_url symptom) = inr r ->
  400 <= status_code r < 600 ->
  map_symptoms_to_hpo requests_get symptom = Returns (PNone, PNone).
Proof.
  intros H [Hlo Hhi]. unfold map_symptoms_to_hpo, map_symptoms_to_hpo_try.
  rewrite H. unfold raise_for_status.
  apply Z.leb_le in Hlo. apply Z.ltb_lt in Hhi. rewrite Hlo, Hhi. reflexivity.
Qed.

Lemma search_invalid_json (r : Response) :
  requests_get (search_url symptom) = inr r ->
  json_body r = None ->
  map_symptoms_to_hpo requests_get symptom = Returns (PNone, PNone).
Proof.
  intros H Hb. unfold map_symptoms_to_hpo, map_symptoms_to_hpo_try.
  rewrite H. unfold raise_for_status, response_json. rewrite Hb.
  destruct ((400 <=? status_code r) && (status_code r <? 600))%bool; reflexivity.
Qed.

Lemma search_no_terms (r : Response) (d : list (string * pyval)) :
  requests_get (search_url symptom) = inr r ->
  json_body r = Some (PDict d) ->
  dict_lookup d "terms" = None \/ dict_lookup d "terms" = Some (PList []) ->
  map_symptoms_to_hpo requests_get symptom = Returns (PNone, PNone).
Proof.
  intros H Hb Ht. unfold map_symptoms_to_hpo, map_symptoms_to_hpo_try.
  rewrite H. unfold raise_for_status, response_json. rewrite Hb.
  destruct ((400 <=? status_code r) && (status_code r <? 600))%bool; cbn;
    [reflexivity|].
  destruct Ht as [Ht | Ht]; rewrite Ht; reflexivity.
Qed.

(** A well-formed body with at least one term: the first term's name and
    identifier come back, whatever follows it in the array. *)
Lemma search_first_term (r : Response) (d e : list (string * pyval))
      (rest : list pyval) (name id : pyval) :
  requests_get (search_url symptom) = inr r ->
  ~ (400 <= status_code r < 600) ->
  json_body r = Some (PDict d) ->
  dict_lookup d "terms" = Some (PList (PDict e :: rest)) ->
  dict_lookup e "name" = Some name ->
  dict_lookup e "id" = Some id ->
  map_symptoms_to_hpo requests_get symptom = Returns (name, id).
Proof.
  intros H Hs Hb Ht Hn Hi. unfold map_symptoms_to_hpo, map_symptoms_to_hpo_try.
  rewrite H. unfold raise_for_status, response_json. rewrite Hb.
  destruct ((400 <=? status_code r) && (status_code r <? 600))%bool eqn:E.
  - exfalso. apply Hs. apply andb_true_iff in E. destruct E as [E1 E2].
    apply Z.leb_le in E1. apply Z.ltb_lt in E2. lia.
  - cbn. rewrite Ht. cbn. rewrite Hn. cbn. rewrite Hi. reflexivity.
Qed.

(** The client has no loop: it never runs out of fuel. *)
Lemma search_terminates :
  map_symptoms_to_hpo requests_get symptom <> OutOfFuel.
Proof.
  unfold map_symptoms_to_hpo, map_symptoms_to_hpo_try.
  destruct (requests_get (search_url symptom)) as [t | r].
  - destruct t; discriminate.
  - unfold raise_for_status, response_json.
    destruct ((400 <=? status_code r) && (status_code r <? 600))%bool;
      [discriminate|].
    destruct (json_body r) as [v|]; [|discriminate]. cbn.
    destruct v as [ | b | z | s | l | d]; try discriminate. cbn.
    destruct (truthy _); [|discriminate].
    destruct (py_index0 _) as [top | e | ] eqn:E0; cbn;
      [ | destruct e; discriminate | now apply py_index0_terminates in E0 ].
    destruct (py_item top "name") as [n | e | ] eqn:En; cbn;
      [ | destruct e; discriminate | now apply py_item_terminates in En ].
    destruct (py_item top "id") as [i | e | ] eqn:Ei; cbn;
      [ discriminate | destruct e; discriminate
        | now apply py_item_terminates in Ei ].
Qed.

(** What the two [except] clauses let through is never a request error
    nor a [ValueError]. *)
Lemma search_raises_only_uncaught (e : exn) :
  map_symptoms_to_hpo requests_get symptom = Raises e ->
  is_RequestException e = false /\ is_ValueError e = false.
Proof.
  unfold map_symptoms_to_hpo.
  destruct (map_symptoms_to_hpo_try requests_get symptom) as [a | e' | ];
    try discriminate.
  destruct (is_RequestException e') eqn:E1; [discriminate|].
  destruct (is_ValueError e') eqn:E2; [discriminate|].
  intros H. injection H as <-. split; assumption.
Qed.

End SearchClientFacts.

(** C4. The search client does not absorb every malformed body: when the
    service answers 200 with a [terms] array whose first element has no
    [name] field, [map_symptoms_to_hpo] raises [KeyError] instead of
    returning [(None, None)].  (A JSON body that is not an object raises
    [AttributeError] the same way.) *)
Theorem search_missing_field_raises :
  map_symptoms_to_hpo
    (service_answering (terms_body [PDict [("id", PStr "HP:0000508")]]))
    "ptosis"
  = Raises KeyError
  /\ map_symptoms_to_hpo (service_answering (PList [])) "ptosis"
     = Raises AttributeError.
Proof. split; reflexivity. Qed.

(* ================================================================== *)
(** ** Properties of the similarity scorer *)

(** C5. [estimate_fuzzy_score] raises its [ValueError] exactly when the
    input term is not a string, and for a string input term (scored
    against a candidate name, which is a string) it returns the score. *)
Theorem estimate_fuzzy_score_validation (extractOne_score : string -> pyval -> Z) :
  (forall input_term hpo_term,
      (exists msg,
          estimate_fuzzy_score extractOne_score input_term hpo_term
          = Raises (ValueError msg))
      <-> is_str input_term = false)
  /\ (forall q c,
         estimate_fuzzy_score extractOne_score (PStr q) (PStr c)
         = Returns (extractOne_score q (PStr c)))
  /\ estimate_fuzzy_score extractOne_score (PInt 5) (PStr "Ptosis")
     = Raises (ValueError "reported_term must be a string.").
Proof.
  split; [|split; reflexivity].
  intros input_term hpo_term. split.
  - intros [msg H]. destruct input_term; try reflexivity.
    cbn in H. discriminate.
  - intros H. destruct input_term; try discriminate; eexists; reflexivity.
Qed.

(* ================================================================== *)
(** ** Properties of the ontology resolvers *)

Section ResolverFacts.

Variable obo_source : nat -> exn + Graph.

Lemma read_obo_reads (st : process_state) :
  obo_reads (snd (read_obo obo_source st)) = S (obo_reads st).
Proof.
  unfold read_obo. destruct (obo_source (obo_reads st)); reflexivity.
Qed.

Lemma read_obo_found (st : process_state) (graph : Graph) :
  obo_source (obo_reads st) = inr graph ->
  fst (read_obo obo_source st) = Returns graph.
Proof. intros H. unfold read_obo. rewrite H. reflexivity. Qed.

Lemma resolver_reads (hpo_id : pyval) (st : process_state) :
  obo_reads (snd (get_hpo_definitions_and_synonyms obo_source hpo_id st))
  = S (obo_reads st).
Proof.
  unfold get_hpo_definitions_and_synonyms, bind, read_obo.
  destruct (obo_source (obo_reads st)) as [e | graph]; [reflexivity|].
  destruct (hashable hpo_id); [|reflexivity].
  destruct (node_of graph hpo_id); reflexivity.
Qed.

Lemma term_from_id_reads (hpo_id : pyval) (st : process_state) :
  obo_reads (snd (get_hpo_term_from_id obo_source hpo_id st)) = S (obo_reads st).
Proof.
  unfold get_hpo_term_from_id, bind, read_obo.
  destruct (obo_source (obo_reads st)) as [e | graph]; [reflexivity|].
  destruct (hashable hpo_id); [|reflexivity].
  destruct (node_of graph hpo_id); reflexivity.
Qed.

Lemma id_from_term_reads (str_lower : string -> string) (hpo_term : string)
      (st : process_state) :
  obo_reads (snd (get_hpo_id_from_term obo_source str_lower hpo_term st))
  = S (obo_reads st).
Proof.
  unfold get_hpo_id_from_term, bind, read_obo.
  destruct (obo_source (obo_reads st)) as [e | graph]; reflexivity.
Qed.

(** Calls that each read once read [n] times in [n] calls. *)
Lemma after_calls_reads {A} (m : M A) :
  (forall st, obo_reads (snd (m st)) = S (obo_reads st)) ->
  forall n st, obo_reads (after_calls n m st) = (obo_reads st + n)%nat.
Proof.
  intros Hm n. induction n as [|n IH]; intros st; cbn.
  - lia.
  - rewrite IH, Hm. lia.
Qed.

(** [load_graph] reads only on a miss, and a read that returns fills the
    cache. *)
Lemma load_graph_hit (st : process_state) (graph : Graph) :
  load_graph_cache st = Some graph ->
  load_graph obo_source st = (Returns graph, st).
Proof. intros H. unfold load_graph. rewrite H. reflexivity. Qed.

Lemma load_graph_miss (st : process_state) (graph : Graph) :
  load_graph_cache st = None ->
  obo_source (obo_reads st) = inr graph ->
  load_graph obo_source st
  = (Returns graph,
     {| obo_reads := S (obo_reads st); load_graph_cache := Some graph |}).
Proof.
  intros Hc Hs. unfold load_graph, read_obo. rewrite Hc, Hs. reflexivity.
Qed.

(** [get_rank_and_path] changes the process state only through
    [load_graph]. *)
Lemma lineage_state (fuel : nat) (hpo_id : pyval) (st : process_state) :
  snd (get_rank_and_path obo_source fuel hpo_id st)
  = snd (load_graph obo_source st).
Proof.
  unfold get_rank_and_path, bind.
  destruct (load_graph obo_source st) as [[graph | e | ] st']; cbn;
    try reflexivity.
  destruct (node_of graph hpo_id); cbn; [|reflexivity].
  unfold lift.
  destruct (rank_path_loop fuel graph hpo_id [hpo_id] 0) as [[d p] | e | ];
    reflexivity.
Qed.

(** The cached path does what the comment on [load_graph] says: once one
    read has returned, no number of lineage calls reads again. *)
Lemma lineage_reads_once (fuel : nat) (hpo_id : pyval) (graph : Graph) :
  forall n st,
    load_graph_cache st = Some graph ->
    obo_reads (after_calls n (get_rank_and_path obo_source fuel hpo_id) st)
    = obo_reads st.
Proof.
  induction n as [|n IH]; intros st Hc; cbn; [reflexivity|].
  rewrite lineage_state, (load_graph_hit _ _ Hc). cbn. now apply IH.
Qed.

End ResolverFacts.

(** C6. With the ontology read as [graph], the resolver returns
    [(None, None)] for an identifier that is not a node, and the node's
    synonym list (empty when none is recorded) with the string
    ["NA"] for a node without a definition; the two results differ. *)
Theorem resolver_absent_vs_no_definition
        (obo_source : nat -> exn + Graph) (st : process_state) (graph : Graph) :
  obo_source (obo_reads st) = inr graph ->
  (forall i,
      dict_lookup graph i = None ->
      fst (get_hpo_definitions_and_synonyms obo_source (PStr i) st)
      = Returns (None, None))
  /\ (forall i nd,
         dict_lookup graph i = Some nd ->
         attr_def nd = None ->
         fst (get_hpo_definitions_and_synonyms obo_source (PStr i) st)
         = Returns (Some (attr_get (attr_synonyms nd) []), Some "NA"))
  /\ (forall i j nd,
         dict_lookup graph i = None ->
         dict_lookup graph j = Some nd ->
         fst (get_hpo_definitions_and_synonyms obo_source (PStr i) st)
         <> fst (get_hpo_definitions_and_synonyms obo_source (PStr j) st)).
Proof.
  intros Hsrc.
  assert (Habsent : forall i,
             dict_lookup graph i = None ->
             fst (get_hpo_definitions_and_synonyms obo_source (PStr i) st)
             = Returns (None, None)).
  { intros i Hi. unfold get_hpo_definitions_and_synonyms, bind, read_obo.
    rewrite Hsrc. cbn. rewrite Hi. reflexivity. }
  assert (Hpresent : forall j nd,
             dict_lookup graph j = Some nd ->
             fst (get_hpo_definitions_and_synonyms obo_source (PStr j) st)
             = Returns (Some (attr_get (attr_synonyms nd) []),
                        Some (attr_get (attr_def nd) "NA"))).
  { intros j nd Hj. unfold get_hpo_definitions_and_synonyms, bind, read_obo.
    rewrite Hsrc. cbn. rewrite Hj. reflexivity. }
  split; [exact Habsent|]. split.
  - intros i nd Hi Hd. rewrite (Hpresent _ _ Hi), Hd. reflexivity.
  - intros i j nd Hi Hj. rewrite (Habsent _ Hi), (Hpresent _ _ Hj). discriminate.
Qed.

Lemma resolver_absent_vs_no_definition_witness :
  fst (get_hpo_definitions_and_synonyms (obo_always example_graph)
         (PStr "HP:9999999") fresh_process)
  = Returns (None, None)
  /\ fst (get_hpo_definitions_and_synonyms (obo_always example_graph)
            (PStr "HP:0000118") fresh_process)
     = Returns (Some ["Organ abnormality"], Some "NA").
Proof.
  destruct (resolver_absent_vs_no_definition
              (obo_always example_graph) fresh_process example_graph eq_refl)
    as [Habsent [Hna _]].
  split.
  - apply Habsent. reflexivity.
  - apply (Hna "HP:0000118" _ eq_refl eq_refl).
Defined.

(** C9. The ontology file is read again by every call of the synonym
    resolver and of the two lookup helpers, whatever the cache of
    [load_graph] holds: [n] calls read it [n] times, so two resolver calls
    in a fresh process read it twice. *)
Theorem ontology_read_on_every_call (obo_source : nat -> exn + Graph) :
  (forall hpo_id n st,
      obo_reads (after_calls n (get_hpo_definitions_and_synonyms obo_source hpo_id) st)
      = (obo_reads st + n)%nat)
  /\ (forall hpo_id n st,
         obo_reads (after_calls n (get_hpo_term_from_id obo_source hpo_id) st)
         = (obo_reads st + n)%nat)
  /\ (forall str_lower hpo_term n st,
         obo_reads (after_calls n (get_hpo_id_from_term obo_source str_lower hpo_term)
                      st)
         = (obo_reads st + n)%nat)
  /\ obo_reads (after_calls 2
                  (get_hpo_definitions_and_synonyms obo_source (PStr "HP:0000508"))
                  fresh_process) = 2%nat.
Proof.
  repeat split; intros.
  - apply after_calls_reads. intros. apply resolver_reads.
  - apply after_calls_reads. intros. apply term_from_id_reads.
  - apply after_calls_reads. intros. apply id_from_term_reads.
  - rewrite after_calls_reads by (intros; apply resolver_reads). reflexivity.
Qed.

(* ================================================================== *)
(** ** The parent-walking loop *)

Section LoopFacts.

Variable graph : Graph.

Lemma first_parent_is_str (v p : pyval) :
  first_parent graph v = Some p -> exists s, p = PStr s.
Proof.
  unfold first_parent. destruct (node_of graph v) as [nd|]; [|discriminate].
  destruct (attr_get (attr_is_a nd) []) as [|q qs]; [discriminate|].
  intros H. injection H as <-. now exists q.
Qed.

Lemma first_parent_node (v p : pyval) :
  first_parent graph v = Some p -> node_of graph v <> None.
Proof.
  unfold first_parent. destruct (node_of graph v); [discriminate|discriminate].
Qed.

Lemma parentless_no_first_parent (v : pyval) :
  parentless graph v -> first_parent graph v = None.
Proof.
  intros [nd [Hn Ha]]. unfold first_parent. rewrite Hn, Ha. reflexivity.
Qed.

(** One iteration, read off the node under [current]. *)
Lemma rank_path_loop_step (fuel : nat) (current : pyval)
      (path : list pyval) (depth : Z) :
  rank_path_loop (S fuel) graph current path depth =
  match node_of graph current with
  | None => Raises KeyError
  | Some _ =>
      match first_parent graph current with
      | None => Returns (depth, path)
      | Some p =>
          if is_str p && match p with PStr s => String.eqb s HPO_ROOT | _ => false end
          then Returns (depth + 1, path ++ [p])
          else rank_path_loop fuel graph p (path ++ [p]) (depth + 1)
      end
  end.
Proof.
  cbn. unfold first_parent.
  destruct (node_of graph current) as [nd|]; [|reflexivity].
  destruct (attr_get (attr_is_a nd) []) as [|q qs]; reflexivity.
Qed.

(** Whatever the loop returns is the starting state extended by a chain
    of hops. *)
Lemma rank_path_loop_sound :
  forall fuel current path depth d p,
    rank_path_loop fuel graph current path depth = Returns (d, p) ->
    exists chain,
      hops graph current chain
      /\ p = path ++ chain
      /\ d = depth + Z.of_nat (List.length chain).
Proof.
  induction fuel as [|fuel IH]; intros current path depth d p H;
    [discriminate|].
  cbn in H.
  destruct (node_of graph current) as [nd|] eqn:En; [|discriminate].
  destruct (attr_get (attr_is_a nd) []) as [|q qs] eqn:Ea.
  - injection H as <- <-. exists []. split.
    + apply hops_parentless. exists nd. now split.
    + rewrite app_nil_r. split; [reflexivity | simpl List.length; lia].
  - assert (Hfp : first_parent graph current = Some (PStr q))
      by (unfold first_parent; rewrite En, Ea; reflexivity).
    destruct (String.eqb q HPO_ROOT) eqn:Eq.
    + apply String.eqb_eq in Eq. subst q. injection H as <- <-.
      exists [PStr HPO_ROOT]. split; [now apply hops_root|].
      split; [reflexivity | simpl List.length; lia].
    + apply IH in H. destruct H as (chain & Hh & -> & ->).
      exists (PStr q :: chain). split.
      * apply hops_step; auto. intros Heq. injection Heq as ->.
        rewrite String.eqb_refl in Eq. discriminate.
      * rewrite <- app_assoc. split; [reflexivity | simpl List.length; lia].
Qed.

(** A chain of hops is found by the loop as soon as the fuel exceeds its
    length. *)
Lemma rank_path_loop_complete (current : pyval) (chain : list pyval) :
  hops graph current chain ->
  forall fuel path depth,
    (List.length chain < fuel)%nat ->
    rank_path_loop fuel graph current path depth
    = Returns (depth + Z.of_nat (List.length chain), path ++ chain).
Proof.
  induction 1 as [v [nd [Hn Ha]] | v Hfp | v p chain Hfp Hne Hh IH];
    intros fuel path depth Hf;
    (destruct fuel as [|fuel]; [simpl in Hf; lia|]).
  - cbn. rewrite Hn, Ha, app_nil_r, Z.add_0_r. reflexivity.
  - rewrite rank_path_loop_step, Hfp.
    destruct (node_of graph v) eqn:En;
      [|now apply first_parent_node in Hfp].
    cbn. reflexivity.
  - rewrite rank_path_loop_step, Hfp.
    destruct (node_of graph v) eqn:En;
      [|now apply first_parent_node in Hfp].
    destruct (first_parent_is_str _ _ Hfp) as [s ->]. cbn.
    destruct (String.eqb s HPO_ROOT) eqn:Eq.
    + apply String.eqb_eq in Eq. subst s. now contradiction Hne.
    + rewrite IH by (simpl in Hf; lia). rewrite <- app_assoc.
      f_equal. f_equal. simpl List.length. lia.
Qed.

Lemma reaches_stop_hops (v : pyval) :
  reaches_stop graph v <-> exists chain, hops graph v chain.
Proof.
  split.
  - induction 1 as [v Hp | v Hr | v p Hfp Hr [chain IH]].
    + exists []. now apply hops_parentless.
    + exists [PStr HPO_ROOT]. now apply hops_root.
    + destruct (first_parent_is_str _ _ Hfp) as [s ->].
      destruct (String.eqb s HPO_ROOT) eqn:Eq.
      * apply String.eqb_eq in Eq. subst s.
        exists [PStr HPO_ROOT]. now apply hops_root.
      * exists (PStr s :: chain). apply hops_step; auto.
        intros Heq. injection Heq as ->.
        rewrite String.eqb_refl in Eq. discriminate.
  - intros [chain H].
    induction H as [v Hp | v Hr | v p chain Hfp Hne Hh IH].
    + now apply stop_parentless.
    + now apply stop_root.
    + now apply stop_later with p.
Qed.

(** The loop returns for some amount of fuel exactly when the chain of
    first parents reaches the root or a parentless node. *)
Lemma rank_path_loop_returns_iff (current : pyval) (path : list pyval) (depth : Z) :
  (exists fuel r, rank_path_loop fuel graph current path depth = Returns r)
  <-> reaches_stop graph current.
Proof.
  rewrite reaches_stop_hops. split.
  - intros (fuel & [d p] & H). apply rank_path_loop_sound in H.
    destruct H as (chain & Hh & _). now exists chain.
  - intros [chain Hh]. exists (S (List.length chain)). eexists.
    apply rank_path_loop_complete; [exact Hh | lia].
Qed.

(** Inside a set of nodes that is closed under first parents and avoids
    the root, the loop never stops. *)
Lemma rank_path_loop_diverges (P : pyval -> Prop) :
  (forall v, P v ->
     exists p, first_parent graph v = Some p /\ p <> PStr HPO_ROOT /\ P p) ->
  forall fuel current path depth,
    P current ->
    rank_path_loop fuel graph current path depth = OutOfFuel.
Proof.
  intros Hclosed. induction fuel as [|fuel IH]; intros current path depth Hc;
    [reflexivity|].
  destruct (Hclosed _ Hc) as (p & Hfp & Hne & Hp).
  rewrite rank_path_loop_step, Hfp.
  destruct (node_of graph current) eqn:En;
    [|now apply first_parent_node in Hfp].
  destruct (first_parent_is_str _ _ Hfp) as [s ->]. cbn.
  destruct (String.eqb s HPO_ROOT) eqn:Eq.
  - apply String.eqb_eq in Eq. subst s. now contradiction Hne.
  - now apply IH.
Qed.

End LoopFacts.

Section ChainFacts.

Variable graph : Graph.

Lemma dict_lookup_in {A} (d : list (string * A)) (k : string) (x : A) :
  dict_lookup d k = Some x -> In k (map fst d).
Proof.
  induction d as [|[k' v] d IH]; cbn; [discriminate|].
  destruct (String.eqb k' k) eqn:E.
  - apply String.eqb_eq in E. now left.
  - intros H. right. now apply IH.
Qed.

Lemma nth_parent_snoc :
  forall n v c p,
    nth_parent graph n v = Some c ->
    first_parent graph c = Some p ->
    nth_parent graph (S n) v = Some p.
Proof.
  induction n as [|n IH]; intros v c p H Hfp.
  - cbn in H. injection H as ->. cbn. now rewrite Hfp.
  - cbn in H. destruct (first_parent graph v) as [q|] eqn:E; [|discriminate].
    cbn. rewrite E. exact (IH _ _ _ H Hfp).
Qed.

(** In a graph with no first-parent cycle the loop visits every node at
    most once, so it stops within as many iterations as there are nodes
    plus one. *)
Lemma rank_path_loop_acyclic_bound :
  first_parent_acyclic graph ->
  forall fuel visited current path depth,
    NoDup visited ->
    incl visited (map fst graph) ->
    (forall w, In w visited ->
               exists n, nth_parent graph (S n) (PStr w) = Some current) ->
    (List.length graph < List.length visited + fuel)%nat ->
    rank_path_loop fuel graph current path depth <> OutOfFuel.
Proof.
  intros Hacyc.
  induction fuel as [|fuel IH];
    intros visited current path depth Hnd Hincl Hreach Hlen.
  - exfalso. apply NoDup_incl_length in Hincl; auto.
    rewrite length_map in Hincl. lia.
  - rewrite rank_path_loop_step.
    destruct (node_of graph current) as [nd|] eqn:En; [|discriminate].
    destruct (first_parent graph current) as [p|] eqn:Hfp; [|discriminate].
    destruct (first_parent_is_str _ _ _ Hfp) as [s ->]. cbn.
    destruct (String.eqb s HPO_ROOT); [discriminate|].
    destruct current as [ | b | z | i | l | d]; try discriminate En.
    cbn in En.
    apply (IH (i :: visited)).
    + constructor; auto. intros Hin. destruct (Hreach _ Hin) as [n Hn].
      exact (Hacyc _ _ Hn).
    + intros x [<- | Hx]; [eapply dict_lookup_in; eauto | auto].
    + intros w [<- | Hw].
      * exists 0%nat. cbn. now rewrite Hfp.
      * destruct (Hreach _ Hw) as [n Hn]. exists (S n).
        eapply nth_parent_snoc; eauto.
    + simpl List.length. lia.
Qed.

Lemma rank_path_loop_acyclic (current : pyval) (path : list pyval) (depth : Z) :
  first_parent_acyclic graph ->
  rank_path_loop (S (List.length graph)) graph current path depth <> OutOfFuel.
Proof.
  intros Hacyc.
  apply (rank_path_loop_acyclic_bound Hacyc (S (List.length graph)) []).
  - constructor.
  - intros x [].
  - intros w [].
  - simpl List.length. lia.
Qed.

Lemma last_cons_default {A} (l : list A) :
  forall x d, last (x :: l) d = last l x.
Proof.
  induction l as [|a l IH]; intros x d; [reflexivity|].
  change (last (x :: a :: l) d) with (last (a :: l) d).
  now rewrite (IH a d), (IH a x).
Qed.

Lemma hd_error_rev_cons {A} (l : list A) :
  forall x, hd_error (rev (x :: l)) = Some (last l x).
Proof.
  induction l as [|a l IH]; intros x; [reflexivity|].
  change (rev (x :: a :: l)) with (rev (a :: l) ++ [x]).
  specialize (IH a). rewrite last_cons_default.
  destruct (rev (a :: l)); [discriminate|exact IH].
Qed.

(** Where a chain of hops ends. *)
Lemma hops_stop_node (v : pyval) (chain : list pyval) :
  hops graph v chain ->
  last chain v = PStr HPO_ROOT \/ parentless graph (last chain v).
Proof.
  induction 1 as [v Hp | v Hr | v p chain Hfp Hne Hh IH].
  - now right.
  - now left.
  - rewrite last_cons_default. exact IH.
Qed.

(** Neighbours in a chain of hops are child and first parent, and after
    its start the chain passes through the root only at its end. *)
Lemma hops_links (v : pyval) (chain : list pyval) :
  hops graph v chain ->
  forall l1 b a l2,
    v :: chain = l1 ++ b :: a :: l2 ->
    first_parent graph b = Some a /\ (l1 <> [] -> b <> PStr HPO_ROOT).
Proof.
  induction 1 as [v Hp | v Hr | v p chain Hfp Hne Hh IH];
    intros l1 b a l2 E.
  - destruct l1 as [|x [|y l1]]; discriminate.
  - destruct l1 as [|x [|y l1]]; try discriminate.
    + injection E as <- <- <-. split; [exact Hr|]. intros Hl; now contradiction Hl.
    + injection E as _ _ E. destruct l1; discriminate.
  - destruct l1 as [|x l1].
    + injection E as <- <- <-. split; [exact Hfp|]. intros Hl; now contradiction Hl.
    + injection E as <- E.
      destruct (IH _ _ _ _ E) as (Hl & Hmid).
      split; [exact Hl|]. intros _. destruct l1 as [|y l1].
      * injection E as <- _. exact Hne.
      * apply Hmid. discriminate.
Qed.

End ChainFacts.

(* ================================================================== *)
(** ** Properties of the lineage resolver *)

Lemma lineage_unfold (obo_source : nat -> exn + Graph) (fuel : nat)
      (hpo_id : pyval) (st : process_state) (graph : Graph) :
  fst (load_graph obo_source st) = Returns graph ->
  fst (get_rank_and_path obo_source fuel hpo_id st) =
  match node_of graph hpo_id with
  | None => Returns (None, [])
  | Some _ =>
      match rank_path_loop fuel graph hpo_id [hpo_id] 0 with
      | Returns (depth, path) => Returns (Some depth, rev path)
      | Raises e => Raises e
      | OutOfFuel => OutOfFuel
      end
  end.
Proof.
  intros H. unfold get_rank_and_path, bind.
  destruct (load_graph obo_source st) as [o st']. cbn in H. subst o.
  destruct (node_of graph hpo_id); [|reflexivity].
  unfold lift.
  destruct (rank_path_loop fuel graph hpo_id [hpo_id] 0) as [[d p] | e | ];
    reflexivity.
Qed.

(** C7. With [graph] the loaded ontology, the lineage of an identifier that
    is not a node is [(None, [])]; the lineage of a node with no [is_a]
    attribute is depth 0 with the node alone as path, after one iteration
    of the loop; so it is for the root [HP:0000001] when it lists no
    parent. *)
Theorem lineage_absent_and_parentless
        (obo_source : nat -> exn + Graph) (st : process_state) (graph : Graph) :
  fst (load_graph obo_source st) = Returns graph ->
  (forall fuel hpo_id,
      node_of graph hpo_id = None ->
      fst (get_rank_and_path obo_source fuel hpo_id st) = Returns (None, []))
  /\ (forall fuel i nd,
         dict_lookup graph i = Some nd ->
         attr_is_a nd = None ->
         fst (get_rank_and_path obo_source (S fuel) (PStr i) st)
         = Returns (Some 0, [PStr i]))
  /\ (forall fuel nd,
         dict_lookup graph "HP:0000001" = Some nd ->
         attr_is_a nd = None ->
         fst (get_rank_and_path obo_source (S fuel) (PStr "HP:0000001") st)
         = Returns (Some 0, [PStr "HP:0000001"])).
Proof.
  intros Hload.
  assert (Hleaf : forall fuel i nd,
             dict_lookup graph i = Some nd ->
             attr_is_a nd = None ->
             fst (get_rank_and_path obo_source (S fuel) (PStr i) st)
             = Returns (Some 0, [PStr i])).
  { intros fuel i nd Hi Ha. rewrite (lineage_unfold _ _ _ _ _ Hload).
    cbn. rewrite Hi, Ha. reflexivity. }
  split; [|split].
  - intros fuel hpo_id Hn. rewrite (lineage_unfold _ _ _ _ _ Hload), Hn.
    reflexivity.
  - exact Hleaf.
  - intros fuel nd. apply Hleaf.
Qed.

Lemma lineage_absent_and_parentless_witness :
  fst (get_rank_and_path (obo_always example_graph) 0 (PStr "HP:9999999")
         fresh_process)
  = Returns (None, [])
  /\ fst (get_rank_and_path (obo_always example_graph) 1 (PStr "HP:0000001")
            fresh_process)
     = Returns (Some 0, [PStr "HP:0000001"]).
Proof.
  destruct (lineage_absent_and_parentless
              (obo_always example_graph) fresh_process example_graph eq_refl)
    as [Habsent [_ Hroot]].
  split.
  - apply Habsent. reflexivity.
  - apply (Hroot 0%nat _ eq_refl eq_refl).
Defined.

(** C8. Whenever the lineage resolver returns for an identifier that is a
    node of the loaded graph, the path is not empty, its last element is
    the queried identifier, its first element is the root or a node with
    no parent (the first such node met, since every later element has a
    first parent and none between the ends is the root), each element is
    the first listed parent of the next, and the depth is the path length
    minus one. *)
Theorem lineage_path_shape
        (obo_source : nat -> exn + Graph) (fuel : nat) (st : process_state)
        (graph : Graph) (hpo_id : pyval) (rank : option Z) (path : list pyval) :
  fst (load_graph obo_source st) = Returns graph ->
  node_of graph hpo_id <> None ->
  fst (get_rank_and_path obo_source fuel hpo_id st) = Returns (rank, path) ->
  lineage_shape graph hpo_id rank path.
Proof.
  intros Hload Hnode Hret.
  rewrite (lineage_unfold _ _ _ _ _ Hload) in Hret.
  destruct (node_of graph hpo_id) as [nd|]; [|now contradiction Hnode].
  destruct (rank_path_loop fuel graph hpo_id [hpo_id] 0) as [[d p] | e | ] eqn:El;
    try discriminate.
  injection Hret as <- <-.
  apply rank_path_loop_sound in El. destruct El as (chain & Hh & -> & ->).
  change ([hpo_id] ++ chain) with (hpo_id :: chain).
  unfold lineage_shape. repeat split.
  - cbn [rev]. intros E. destruct (rev chain); discriminate.
  - cbn [rev]. apply last_last.
  - exists (last chain hpo_id). split; [apply hd_error_rev_cons|].
    exact (hops_stop_node _ _ _ Hh).
  - assert (E : hpo_id :: chain = rev l2 ++ b :: a :: rev l1).
    { rewrite <- (rev_involutive (hpo_id :: chain)), H.
      rewrite rev_app_distr. cbn [rev]. now rewrite <- !app_assoc. }
    exact (proj1 (hops_links _ _ _ Hh _ _ _ _ E)).
  - intros Hl2.
    assert (E : hpo_id :: chain = rev l2 ++ b :: a :: rev l1).
    { rewrite <- (rev_involutive (hpo_id :: chain)), H.
      rewrite rev_app_distr. cbn [rev]. now rewrite <- !app_assoc. }
    apply (proj2 (hops_links _ _ _ Hh _ _ _ _ E)).
    intros Hr. apply Hl2. destruct l2; [reflexivity|].
    cbn [rev] in Hr. destruct (rev l2); discriminate.
  - f_equal. rewrite length_rev. simpl List.length. lia.
Qed.

Lemma lineage_path_shape_witness :
  lineage_shape example_graph (PStr "HP:0000508") (Some 3)
    [PStr "HP:0000001"; PStr "HP:0000118"; PStr "HP:0000478"; PStr "HP:0000508"].
Proof.
  apply (lineage_path_shape (obo_always example_graph) 10 fresh_process).
  - reflexivity.
  - discriminate.
  - reflexivity.
Defined.

(** C10. With [graph] the loaded ontology: if from every node the chain of
    first parents reaches the root or a parentless node, the resolver
    returns for every identifier given enough fuel; if the graph has no
    first-parent cycle the loop stops within one iteration per node plus
    one; a node whose chain never reaches the root or a parentless node is
    never returned from; and inside a set of nodes closed under first
    parents and away from the root (a cycle) the loop runs for ever. *)
Theorem lineage_loop_termination
        (obo_source : nat -> exn + Graph) (st : process_state) (graph : Graph) :
  fst (load_graph obo_source st) = Returns graph ->
  ((forall v, node_of graph v <> None -> reaches_stop graph v) ->
   forall hpo_id,
   exists fuel r, fst (get_rank_and_path obo_source fuel hpo_id st) = Returns r)
  /\ (first_parent_acyclic graph ->
      forall hpo_id,
        fst (get_rank_and_path obo_source (S (List.length graph)) hpo_id st)
        <> OutOfFuel)
  /\ (forall hpo_id,
         node_of graph hpo_id <> None ->
         ~ reaches_stop graph hpo_id ->
         forall fuel r,
           fst (get_rank_and_path obo_source fuel hpo_id st) <> Returns r)
  /\ (forall P : pyval -> Prop,
         (forall v, P v ->
            exists p, first_parent graph v = Some p /\ p <> PStr HPO_ROOT /\ P p) ->
         forall hpo_id,
           P hpo_id ->
           forall fuel,
             fst (get_rank_and_path obo_source fuel hpo_id st) = OutOfFuel).
Proof.
  intros Hload. split; [|split; [|split]].
  - intros Hall hpo_id.
    destruct (node_of graph hpo_id) as [nd|] eqn:En.
    + assert (Hr : reaches_stop graph hpo_id) by (apply Hall; congruence).
      apply reaches_stop_hops in Hr. destruct Hr as [chain Hh].
      exists (S (List.length chain)). eexists.
      rewrite (lineage_unfold _ _ _ _ _ Hload), En.
      rewrite (rank_path_loop_complete _ _ _ Hh) by lia. reflexivity.
    + exists 0%nat. eexists.
      rewrite (lineage_unfold _ _ _ _ _ Hload), En. reflexivity.
  - intros Hacyc hpo_id. rewrite (lineage_unfold _ _ _ _ _ Hload).
    destruct (node_of graph hpo_id); [|discriminate].
    pose proof (rank_path_loop_acyclic graph hpo_id [hpo_id] 0 Hacyc) as Hne.
    destruct (rank_path_loop (S (List.length graph)) graph hpo_id [hpo_id] 0)
      as [[d p] | e | ]; [discriminate | discriminate | now contradiction Hne].
  - intros hpo_id Hnode Hnot fuel r. rewrite (lineage_unfold _ _ _ _ _ Hload).
    destruct (node_of graph hpo_id); [|now contradiction Hnode].
    destruct (rank_path_loop fuel graph hpo_id [hpo_id] 0) as [[d p] | e | ] eqn:El;
      try discriminate.
    exfalso. apply Hnot.
    apply (rank_path_loop_returns_iff graph hpo_id [hpo_id] 0).
    now exists fuel, (d, p).
  - intros P Hclosed hpo_id HP fuel. rewrite (lineage_unfold _ _ _ _ _ Hload).
    destruct (Hclosed _ HP) as (p & Hfp & _).
    destruct (node_of graph hpo_id) eqn:En;
      [|now apply first_parent_node in Hfp].
    now rewrite (rank_path_loop_diverges graph P Hclosed fuel hpo_id [hpo_id] 0 HP).
Qed.

Lemma example_graph_nodes (v : pyval) :
  node_of example_graph v <> None ->
  v = PStr "HP:0000001" \/ v = PStr "HP:0000118"
  \/ v = PStr "HP:0000478" \/ v = PStr "HP:0000508".
Proof.
  destruct v as [ | b | z | i | l | d]; try (intros H; now contradiction H).
  unfold node_of. destruct (dict_lookup example_graph i) as [nd|] eqn:E;
    [intros _ | intros H; now contradiction H].
  apply dict_lookup_in in E. cbn in E.
  destruct E as [<- | [<- | [<- | [<- | []]]]]; auto.
Qed.

Lemma example_graph_reaches_stop (v : pyval) :
  node_of example_graph v <> None -> reaches_stop example_graph v.
Proof.
  intros H.
  assert (H1 : reaches_stop example_graph (PStr "HP:0000001")).
  { apply stop_parentless. eexists. split; reflexivity. }
  assert (H2 : reaches_stop example_graph (PStr "HP:0000118")).
  { apply stop_root. reflexivity. }
  assert (H3 : reaches_stop example_graph (PStr "HP:0000478")).
  { apply stop_later with (PStr "HP:0000118"); [reflexivity|exact H2]. }
  destruct (example_graph_nodes v H) as [-> | [-> | [-> | ->]]]; auto.
  apply stop_later with (PStr "HP:0000478"); [reflexivity|exact H3].
Qed.

Lemma lineage_loop_termination_witness :
  (exists fuel r,
      fst (get_rank_and_path (obo_always example_graph) fuel (PStr "HP:0000508")
             fresh_process) = Returns r)
  /\ (forall fuel,
         fst (get_rank_and_path (obo_always cyclic_graph) fuel (PStr "HP:0000002")
                fresh_process) = OutOfFuel).
Proof.
  split.
  - apply (proj1 (lineage_loop_termination
                    (obo_always example_graph) fresh_process example_graph eq_refl)).
    exact example_graph_reaches_stop.
  - apply (proj2 (proj2 (proj2 (lineage_loop_termination
                    (obo_always cyclic_graph) fresh_process cyclic_graph eq_refl)))
             (fun v => v = PStr "HP:0000002" \/ v = PStr "HP:0000003")).
    + intros v [-> | ->].
      * exists (PStr "HP:0000003"). repeat split; [discriminate | now right].
      * exists (PStr "HP:0000002"). repeat split; [discriminate | now left].
    + now left.
Defined.

(* ================================================================== *)
(** ** Properties of the matching pipeline *)

Lemma str_in_In (x : string) (l : list string) :
  str_in x l = true <-> In x l.
Proof.
  unfold str_in. rewrite existsb_exists. split.
  - intros (y & Hy & E). apply String.eqb_eq in E. now subst.
  - intros H. exists x. split; [exact H | apply String.eqb_refl].
Qed.

Section PipelineFacts.

Variable requests_get : string -> transport_error + Response.
Variable extractOne_score : string -> pyval -> Z.
Variable obo_source : nat -> exn + Graph.
Variable str_lower : string -> string.

(** No candidate: the early [return], with its five fields; nothing is
    read from the ontology. *)
Lemma pipeline_no_candidate (fuel : nat) (symptom : string)
      (hpo_term hpo_id : pyval) (st : process_state) :
  map_symptoms_to_hpo requests_get symptom = Returns (hpo_term, hpo_id) ->
  (is_None hpo_term || is_None hpo_id)%bool = true ->
  map_symptoms_to_hpo_pipeline requests_get extractOne_score obo_source str_lower
    fuel symptom st
  = (Returns [PStr symptom; PNone; PNone; PInt 0; PStr "not matched"], st).
Proof.
  intros Hs Hn. unfold map_symptoms_to_hpo_pipeline, bind, lift.
  rewrite Hs, Hn. reflexivity.
Qed.

(** A candidate for which both resolvers return: the pipeline ends in
    step 5, and its outcome is that of the acceptance test. *)
Lemma pipeline_candidate (fuel : nat) (symptom term : string) (hpo_id : pyval)
      (st st1 st2 : process_state)
      (synonyms : option (list string)) (definition : option string)
      (rank : option Z) (path : list pyval) :
  map_symptoms_to_hpo requests_get symptom = Returns (PStr term, hpo_id) ->
  is_None hpo_id = false ->
  get_hpo_definitions_and_synonyms obo_source hpo_id st
  = (Returns (synonyms, definition), st1) ->
  get_rank_and_path obo_source fuel hpo_id st1 = (Returns (rank, path), st2) ->
  map_symptoms_to_hpo_pipeline requests_get extractOne_score obo_source str_lower
    fuel symptom st =
  (match match_is_acceptable str_lower (extractOne_score symptom (PStr term))
           (PStr term) synonyms with
   | Returns ok =>
       Returns (match_record symptom term hpo_id definition rank path
                  (extractOne_score symptom (PStr term))
                  (if ok then "matched" else "not matched"))
   | Raises e => Raises e
   | OutOfFuel => OutOfFuel
   end, st2).
Proof.
  intros Hs Hn Hr Hl. unfold map_symptoms_to_hpo_pipeline, bind, lift.
  rewrite Hs. cbn. rewrite Hn, Hr, Hl.
  destruct (match_is_acceptable str_lower (extractOne_score symptom (PStr term))
              (PStr term) synonyms)
    as [[|] | e | ]; reflexivity.
Qed.

(** The identifier is not in the ontology and the score is below 80:
    step 5 iterates over [None]. *)
Lemma pipeline_absent_synonyms_raises (fuel : nat) (symptom term : string)
      (hpo_id : pyval) (st st1 st2 : process_state)
      (definition : option string) (rank : option Z) (path : list pyval) :
  map_symptoms_to_hpo requests_get symptom = Returns (PStr term, hpo_id) ->
  is_None hpo_id = false ->
  get_hpo_definitions_and_synonyms obo_source hpo_id st
  = (Returns (None, definition), st1) ->
  get_rank_and_path obo_source fuel hpo_id st1 = (Returns (rank, path), st2) ->
  extractOne_score symptom (PStr term) < 80 ->
  map_symptoms_to_hpo_pipeline requests_get extractOne_score obo_source str_lower
    fuel symptom st = (Raises TypeError, st2).
Proof.
  intros Hs Hn Hr Hl Hlt. rewrite (pipeline_candidate _ _ _ _ _ _ _ _ _ _ _ Hs Hn Hr Hl).
  unfold match_is_acceptable. apply Z.leb_gt in Hlt. rewrite Hlt. reflexivity.
Qed.

End PipelineFacts.

(** C1. A symptom for which the search finds no term: the pipeline returns
    the five fields [(symptom, None, None, 0, 'not matched')], which is
    not the eight-field record with absent definition, rank and an empty
    path. *)
Theorem pipeline_no_candidate_five_fields :
  forall str_lower fuel,
    fst (map_symptoms_to_hpo_pipeline
           (service_answering (terms_body [])) (score_always 0)
           (obo_always example_graph) str_lower fuel "xyzzynonexistentsymptom"
           fresh_process)
    = Returns [PStr "xyzzynonexistentsymptom"; PNone; PNone; PInt 0;
               PStr "not matched"]
    /\ fst (map_symptoms_to_hpo_pipeline
              (service_answering (terms_body [])) (score_always 0)
              (obo_always example_graph) str_lower fuel "xyzzynonexistentsymptom"
              fresh_process)
       <> Returns (no_candidate_record "xyzzynonexistentsymptom").
Proof.
  intros str_lower fuel.
  rewrite (pipeline_no_candidate _ _ _ str_lower fuel "xyzzynonexistentsymptom"
             PNone PNone)
    by reflexivity.
  split; [reflexivity | discriminate].
Qed.

(** C3. The search proposes a term whose identifier is not a node of the
    ontology and the score is below 80: the pipeline raises [TypeError]
    instead of returning a record with status "not matched". *)
Theorem pipeline_unknown_identifier_raises :
  forall str_lower fuel,
    fst (map_symptoms_to_hpo_pipeline
           (service_answering (terms_body [term_entry "Ptosis" "HP:9999999"]))
           (score_always 50) (obo_always example_graph) str_lower
           fuel "droopy lid" fresh_process)
    = Raises TypeError.
Proof.
  intros str_lower fuel.
  erewrite pipeline_absent_synonyms_raises with (term := "Ptosis");
    try reflexivity.
Qed.


(** The acceptance rule of step 5.  For a candidate [(term, hpo_id)] on
    which both resolvers return, with [synonyms] what the synonym resolver
    gave: whatever record the pipeline returns carries status "matched"
    exactly when the score is at least 80 or [synonyms] is a list that
    holds the term up to case folding, and "not matched" exactly when
    neither holds; a score of 80 or more gives "matched", so does a term
    found among the synonyms, and a score below 80 with a synonym list
    that does not hold the term gives "not matched". *)
Theorem pipeline_match_acceptance
        (requests_get : string -> transport_error + Response)
        (extractOne_score : string -> pyval -> Z)
        (obo_source : nat -> exn + Graph)
        (str_lower : string -> string)
        (fuel : nat) (symptom term : string) (hpo_id : pyval)
        (st st1 st2 : process_state)
        (synonyms : option (list string)) (definition : option string)
        (rank : option Z) (path : list pyval) :
  map_symptoms_to_hpo requests_get symptom = Returns (PStr term, hpo_id) ->
  is_None hpo_id = false ->
  get_hpo_definitions_and_synonyms obo_source hpo_id st
  = (Returns (synonyms, definition), st1) ->
  get_rank_and_path obo_source fuel hpo_id st1 = (Returns (rank, path), st2) ->
  let score := extractOne_score symptom (PStr term) in
  let in_synonyms :=
    exists l, synonyms = Some l /\ In (str_lower term) (map str_lower l) in
  let run :=
    map_symptoms_to_hpo_pipeline requests_get extractOne_score obo_source str_lower
      fuel symptom st in
  let record := match_record symptom term hpo_id definition rank path score in
  (forall t st',
      run = (Returns t, st') ->
      exists status,
        t = record status
        /\ (status = "matched" <-> 80 <= score \/ in_synonyms)
        /\ (status = "not matched" <-> ~ (80 <= score \/ in_synonyms)))
  /\ (80 <= score -> run = (Returns (record "matched"), st2))
  /\ (in_synonyms -> run = (Returns (record "matched"), st2))
  /\ (forall l,
         synonyms = Some l ->
         score < 80 ->
         ~ In (str_lower term) (map str_lower l) ->
         run = (Returns (record "not matched"), st2)).
Proof.
  intros Hs Hn Hr Hl score in_synonyms run record.
  assert (Hrun := pipeline_candidate requests_get extractOne_score obo_source
                    str_lower fuel symptom term hpo_id st st1 st2 synonyms
                    definition rank path Hs Hn Hr Hl).
  cbv zeta in Hrun. fold score in Hrun. fold run in Hrun. fold record in Hrun.
  assert (Hacc : forall ok,
             match_is_acceptable str_lower score (PStr term) synonyms = Returns ok ->
             (ok = true <-> 80 <= score \/ in_synonyms)).
  { intros ok. unfold match_is_acceptable, term_in_synonyms.
    destruct (80 <=? score) eqn:E.
    - intros H. injection H as <-. apply Z.leb_le in E. tauto.
    - apply Z.leb_gt in E. destruct synonyms as [l|]; [|discriminate].
      intros H. injection H as <-. rewrite str_in_In. split.
      + intros Hin. right. now exists l.
      + intros [Hge | (l' & Hl' & Hin)]; [lia|]. now injection Hl' as ->. }
  split; [|split; [|split]].
  - intros t st' Ht. rewrite Hrun in Ht.
    destruct (match_is_acceptable str_lower score (PStr term) synonyms)
      as [ok | e | ] eqn:Ea; try discriminate.
    injection Ht as <- _. specialize (Hacc ok eq_refl).
    exists (if ok then "matched" else "not matched"). split; [reflexivity|].
    destruct ok.
    + assert (Hc : 80 <= score \/ in_synonyms) by now apply Hacc.
      split; split; try discriminate; try reflexivity.
      * intros _. exact Hc.
      * intros Hnc. now contradiction Hnc.
    + assert (Hnc : ~ (80 <= score \/ in_synonyms))
        by (intros Hc; apply Hacc in Hc; discriminate).
      split; split; try discriminate; try reflexivity.
      * intros Hc. now contradiction Hnc.
      * intros _. exact Hnc.
  - intros Hge. rewrite Hrun. unfold match_is_acceptable.
    apply Z.leb_le in Hge. now rewrite Hge.
  - intros (l & -> & Hin). rewrite Hrun. unfold match_is_acceptable, term_in_synonyms.
    apply str_in_In in Hin. rewrite Hin. now destruct (80 <=? score).
  - intros l -> Hlt Hnot. rewrite Hrun. unfold match_is_acceptable, term_in_synonyms.
    apply Z.leb_gt in Hlt. rewrite Hlt.
    destruct (str_in (str_lower term) (map str_lower l)) eqn:E; [|reflexivity].
    apply str_in_In in E. now contradiction Hnot.
Qed.

Lemma pipeline_match_acceptance_witness :
  fst (map_symptoms_to_hpo_pipeline
         (service_answering (terms_body [term_entry "Ptosis" "HP:0000508"]))
         (score_always 80) (obo_always example_graph) lower 10 "ptosis" fresh_process)
  = Returns (match_record "ptosis" "Ptosis" (PStr "HP:0000508")
               (Some "The upper eyelid margin is positioned lower than usual.")
               (Some 3)
               [PStr "HP:0000001"; PStr "HP:0000118"; PStr "HP:0000478";
                PStr "HP:0000508"]
               80 "matched")
  /\ fst (map_symptoms_to_hpo_pipeline
            (service_answering (terms_body [term_entry "Ptosis" "HP:0000508"]))
            (score_always 40) (obo_always example_graph) lower 10 "droopy lid"
            fresh_process)
     = Returns (match_record "droopy lid" "Ptosis" (PStr "HP:0000508")
                  (Some "The upper eyelid margin is positioned lower than usual.")
                  (Some 3)
                  [PStr "HP:0000001"; PStr "HP:0000118"; PStr "HP:0000478";
                   PStr "HP:0000508"]
                  40 "matched")
  /\ fst (map_symptoms_to_hpo_pipeline
            (service_answering
               (terms_body [term_entry "Abnormality of the eye" "HP:0000478"]))
            (score_always 79) (obo_always example_graph) lower 10 "sore eye"
            fresh_process)
     = Returns (match_record "sore eye" "Abnormality of the eye" (PStr "HP:0000478")
                  (Some "Any abnormality of the eye.") (Some 2)
                  [PStr "HP:0000001"; PStr "HP:0000118"; PStr "HP:0000478"]
                  79 "not matched").
Proof.
  split; [|split].
  - destruct (pipeline_match_acceptance
                (service_answering (terms_body [term_entry "Ptosis" "HP:0000508"]))
                (score_always 80) (obo_always example_graph) lower 10 "ptosis"
                "Ptosis" (PStr "HP:0000508") fresh_process _ _ _ _ _ _
                eq_refl eq_refl eq_refl eq_refl) as (_ & Hge & _).
    rewrite Hge; [reflexivity | unfold score_always; lia].
  - destruct (pipeline_match_acceptance
                (service_answering (terms_body [term_entry "Ptosis" "HP:0000508"]))
                (score_always 40) (obo_always example_graph) lower 10 "droopy lid"
                "Ptosis" (PStr "HP:0000508") fresh_process _ _ _ _ _ _
                eq_refl eq_refl eq_refl eq_refl) as (_ & _ & Hsyn & _).
    rewrite Hsyn; [reflexivity|].
    eexists. split; [reflexivity|]. cbn. right. right. now left.
  - destruct (pipeline_match_acceptance
                (service_answering
                   (terms_body [term_entry "Abnormality of the eye" "HP:0000478"]))
                (score_always 79) (obo_always example_graph) lower 10 "sore eye"
                "Abnormality of the eye"
                (PStr "HP:0000478") fresh_process _ _ _ _ _ _
                eq_refl eq_refl eq_refl eq_refl) as (_ & _ & _ & Hlt).
    rewrite (Hlt _ eq_refl); [reflexivity | unfold score_always; lia |].
    cbn. intros [H | [H | []]]; discriminate.
Defined.

(* ================================================================== *)
(** ** Further properties of the term search client *)

(** The fail-soft cases of [map_symptoms_to_hpo]: a transport failure, a
    4xx or 5xx status, or a body that is not JSON all come back as
    [(None, None)]. *)
Theorem search_fail_soft
        (requests_get : string -> transport_error + Response) (symptom : string) :
  (exists t, requests_get (search_url symptom) = inl t)
  \/ (exists r, requests_get (search_url symptom) = inr r
                /\ (400 <= status_code r < 600 \/ json_body r = None)) ->
  map_symptoms_to_hpo requests_get symptom = Returns (PNone, PNone).
Proof.
  intros [[t Ht] | (r & Hr & [Hs | Hb])].
  - exact (search_transport_error _ _ _ Ht).
  - exact (search_http_error _ _ _ Hr Hs).
  - exact (search_invalid_json _ _ _ Hr Hb).
Qed.

Lemma search_fail_soft_witness :
  map_symptoms_to_hpo (fun _ => inl TimedOut) "ptosis" = Returns (PNone, PNone)
  /\ map_symptoms_to_hpo
       (fun _ => inr {| status_code := 503; json_body := Some (terms_body []) |})
       "ptosis" = Returns (PNone, PNone).
Proof.
  split.
  - apply search_fail_soft. left. exists TimedOut. reflexivity.
  - apply search_fail_soft. right. eexists. split; [reflexivity|].
    left. cbn. lia.
Defined.

Lemma search_first_term_witness :
  map_symptoms_to_hpo
    (service_answering
       (terms_body [term_entry "Ptosis" "HP:0000508";
                    term_entry "Unilateral ptosis" "HP:0007687"]))
    "ptosis"
  = Returns (PStr "Ptosis", PStr "HP:0000508").
Proof.
  eapply search_first_term; try reflexivity. cbn. lia.
Defined.

(** A JSON object whose [terms] entry is missing or falsy (an empty list,
    [null], [0], an empty string or object, [false]) gives no candidate. *)
Theorem search_falsy_terms
        (requests_get : string -> transport_error + Response) (symptom : string)
        (r : Response) (d : list (string * pyval)) :
  requests_get (search_url symptom) = inr r ->
  json_body r = Some (PDict d) ->
  dict_lookup d "terms" = None
  \/ (exists v, dict_lookup d "terms" = Some v /\ truthy v = false) ->
  map_symptoms_to_hpo requests_get symptom = Returns (PNone, PNone).
Proof.
  intros H Hb Ht. unfold map_symptoms_to_hpo, map_symptoms_to_hpo_try.
  rewrite H. unfold raise_for_status, response_json. rewrite Hb.
  destruct ((400 <=? status_code r) && (status_code r <? 600))%bool; cbn;
    [reflexivity|].
  destruct Ht as [Ht | (v & Ht & Hv)]; rewrite Ht; [reflexivity|].
  now rewrite Hv.
Qed.

Lemma search_falsy_terms_witness :
  map_symptoms_to_hpo (service_answering (PDict [("terms", PNone)])) "ptosis"
  = Returns (PNone, PNone)
  /\ map_symptoms_to_hpo (service_answering (PDict [("error", PStr "busy")])) "ptosis"
     = Returns (PNone, PNone).
Proof.
  split.
  - eapply search_falsy_terms; try reflexivity.
    right. exists PNone. split; reflexivity.
  - eapply search_falsy_terms; try reflexivity. now left.
Defined.

(** The only exceptions that leave [map_symptoms_to_hpo] are [KeyError],
    [TypeError] and [AttributeError], raised while picking the response
    body apart. *)
Theorem search_escaping_errors
        (requests_get : string -> transport_error + Response) (symptom : string)
        (e : exn) :
  map_symptoms_to_hpo requests_get symptom = Raises e ->
  e = KeyError \/ e = TypeError \/ e = AttributeError.
Proof.
  unfold map_symptoms_to_hpo, map_symptoms_to_hpo_try.
  destruct (requests_get (search_url symptom)) as [t | r].
  - destruct t; discriminate.
  - unfold raise_for_status, response_json.
    destruct ((400 <=? status_code r) && (status_code r <? 600))%bool;
      [discriminate|].
    destruct (json_body r) as [v|]; [|discriminate]. cbn.
    destruct v as [ | b | z | s | l | d]; cbn;
      try (intros H; injection H as <-; auto).
    destruct (match dict_lookup d "terms" with Some x => x | None => PList [] end)
      as [ | b | z | s | l | d'] eqn:Et; cbn; try discriminate.
    + destruct b; cbn; [|discriminate]. intros H; injection H as <-; auto.
    + destruct (z =? 0); cbn; [discriminate|]. intros H; injection H as <-; auto.
    + destruct s as [|c s]; cbn; [discriminate|]. intros H; injection H as <-; auto.
    + destruct l as [|top l]; cbn; [discriminate|].
      destruct top as [ | b | z | s | l' | e']; cbn;
        try (intros H; injection H as <-; auto).
      destruct (dict_lookup e' "name"); cbn;
        [|intros H; injection H as <-; auto].
      destruct (dict_lookup e' "id"); cbn;
        [discriminate | intros H; injection H as <-; auto].
    + destruct d'; cbn; [discriminate|]. intros H; injection H as <-; auto.
Qed.

Lemma search_escaping_errors_witness :
  TypeError = KeyError \/ TypeError = TypeError \/ TypeError = AttributeError.
Proof.
  apply (search_escaping_errors
           (service_answering (terms_body [PStr "Ptosis"])) "ptosis").
  reflexivity.
Defined.

(* ================================================================== *)
(** ** Further properties of the cached loader and the lineage resolver *)

(** Once [load_graph] has returned a graph, the cache holds it and every
    later call returns that same graph without reading the file, whatever
    the file has become in the meantime. *)
Theorem load_graph_cached_after_success
        (obo_source : nat -> exn + Graph) (st st' : process_state) (graph : Graph) :
  load_graph obo_source st = (Returns graph, st') ->
  load_graph_cache st' = Some graph
  /\ (obo_reads st' <= S (obo_reads st))%nat
  /\ (forall later_source, load_graph later_source st' = (Returns graph, st')).
Proof.
  unfold load_graph at 1. intros H.
  assert (Hc : load_graph_cache st' = Some graph /\ (obo_reads st' <= S (obo_reads st))%nat).
  { destruct (load_graph_cache st) as [g|] eqn:Ec.
    - injection H as <- <-. split; [exact Ec | lia].
    - unfold read_obo in H.
      destruct (obo_source (obo_reads st)) as [e | g]; [discriminate|].
      injection H as <- <-. cbn. split; [reflexivity | lia]. }
  destruct Hc as [Hc Hr]. repeat split; auto.
  intros later_source. now apply load_graph_hit.
Qed.

Lemma load_graph_cached_after_success_witness :
  load_graph (fun _ => inl OSError)
    {| obo_reads := 1; load_graph_cache := Some example_graph |}
  = (Returns example_graph,
     {| obo_reads := 1; load_graph_cache := Some example_graph |}).
Proof.
  apply (load_graph_cached_after_success
           (obo_always example_graph) fresh_process _ example_graph eq_refl).
Defined.

(** A read that fails is not cached: [load_graph] raises the error, the
    cache stays empty, and the next call reads the file again. *)
Theorem load_graph_failure_not_cached
        (obo_source : nat -> exn + Graph) (st : process_state) (e : exn) :
  load_graph_cache st = None ->
  obo_source (obo_reads st) = inl e ->
  load_graph obo_source st
  = (Raises e, {| obo_reads := S (obo_reads st); load_graph_cache := None |})
  /\ obo_reads (snd (load_graph obo_source (snd (load_graph obo_source st))))
     = S (S (obo_reads st)).
Proof.
  intros Hc He.
  assert (H1 : load_graph obo_source st
               = (Raises e, {| obo_reads := S (obo_reads st);
                               load_graph_cache := None |})).
  { unfold load_graph, read_obo. rewrite Hc, He. reflexivity. }
  split; [exact H1|]. rewrite H1. cbn.
  unfold load_graph, read_obo. cbn.
  destruct (obo_source (S (obo_reads st))); reflexivity.
Qed.

Lemma load_graph_failure_not_cached_witness :
  load_graph (fun _ => inl OSError) fresh_process
  = (Raises OSError, {| obo_reads := 1; load_graph_cache := None |})
  /\ obo_reads (snd (load_graph (fun _ => inl OSError)
                       (snd (load_graph (fun _ => inl OSError) fresh_process))))
     = 2%nat.
Proof.
  apply (load_graph_failure_not_cached (fun _ => inl OSError) fresh_process OSError);
    reflexivity.
Defined.

Lemma lineage_sequence_cached (obo_source : nat -> exn + Graph) (graph : Graph) :
  forall (calls : list (nat * pyval)) (st : process_state),
    load_graph_cache st = Some graph ->
    obo_reads (after_sequence
                 (map (fun c => get_rank_and_path obo_source (fst c) (snd c)) calls)
                 st)
    = obo_reads st.
Proof.
  induction calls as [|c calls IH]; intros st Hc; cbn; [reflexivity|].
  rewrite lineage_state, (load_graph_hit _ _ _ Hc). cbn. now apply IH.
Qed.

(** Lineage calls share one read: when the cache is filled, or the next
    read of the file succeeds, any sequence of [get_rank_and_path] calls,
    for any identifiers, reads the file at most once in total. *)
Theorem lineage_reads_at_most_once
        (obo_source : nat -> exn + Graph) (st : process_state)
        (calls : list (nat * pyval)) :
  load_graph_cache st <> None
  \/ (exists graph, obo_source (obo_reads st) = inr graph) ->
  (obo_reads (after_sequence
                (map (fun c => get_rank_and_path obo_source (fst c) (snd c)) calls)
                st)
   <= S (obo_reads st))%nat.
Proof.
  intros H. destruct (load_graph_cache st) as [g|] eqn:Ec.
  - rewrite (lineage_sequence_cached obo_source g calls st Ec). lia.
  - destruct H as [H | [graph Hs]]; [now contradiction H|].
    destruct calls as [|c calls]; cbn; [lia|].
    rewrite lineage_state, (load_graph_miss _ _ _ Ec Hs). cbn.
    rewrite (lineage_sequence_cached obo_source graph calls) by reflexivity.
    cbn. lia.
Qed.

Lemma lineage_reads_at_most_once_witness :
  (obo_reads (after_sequence
                (map (fun c => get_rank_and_path (obo_always example_graph)
                                 (fst c) (snd c))
                     [(10%nat, PStr "HP:0000508"); (10%nat, PStr "HP:0000478");
                      (0%nat, PStr "HP:9999999")])
                fresh_process)
   <= 1)%nat.
Proof.
  apply (lineage_reads_at_most_once (obo_always example_graph) fresh_process).
  right. exists example_graph. reflexivity.
Defined.

(** Whatever [get_rank_and_path] returns is either [(None, [])] or a depth
    that is not negative with a path of depth + 1 identifiers ending in the
    queried one: the rank is absent exactly when the path is empty. *)
Theorem lineage_rank_path_consistent
        (obo_source : nat -> exn + Graph) (fuel : nat) (hpo_id : pyval)
        (st : process_state) (rank : option Z) (path : list pyval) :
  fst (get_rank_and_path obo_source fuel hpo_id st) = Returns (rank, path) ->
  (rank = None /\ path = [])
  \/ (exists depth,
         rank = Some depth /\ 0 <= depth
         /\ Z.of_nat (List.length path) = depth + 1
         /\ last path PNone = hpo_id).
Proof.
  unfold get_rank_and_path, bind.
  destruct (load_graph obo_source st) as [[graph | e | ] st1]; cbn;
    try discriminate.
  destruct (node_of graph hpo_id) as [nd|]; cbn.
  - unfold lift.
    destruct (rank_path_loop fuel graph hpo_id [hpo_id] 0) as [[d p] | e | ] eqn:El;
      cbn; try discriminate.
    intros H. injection H as <- <-. right.
    apply rank_path_loop_sound in El. destruct El as (chain & _ & -> & ->).
    exists (0 + Z.of_nat (List.length chain)). repeat split; try lia.
    + rewrite length_rev, length_app. simpl List.length. lia.
    + change ([hpo_id] ++ chain) with (hpo_id :: chain). cbn [rev].
      apply last_last.
  - intros H. injection H as <- <-. now left.
Qed.

Lemma lineage_rank_path_consistent_witness :
  (Some 2 = None /\ [PStr "HP:0000001"; PStr "HP:0000118"; PStr "HP:0000478"] = [])
  \/ (exists depth,
         Some 2 = Some depth /\ 0 <= depth
         /\ Z.of_nat (List.length
                        [PStr "HP:0000001"; PStr "HP:0000118"; PStr "HP:0000478"])
            = depth + 1
         /\ last [PStr "HP:0000001"; PStr "HP:0000118"; PStr "HP:0000478"] PNone
            = PStr "HP:0000478").
Proof.
  apply (lineage_rank_path_consistent (obo_always example_graph) 10
           (PStr "HP:0000478") fresh_process).
  reflexivity.
Defined.

Section ChainBounds.

Variable graph : Graph.

Lemma first_parent_key (v p : pyval) :
  first_parent graph v = Some p ->
  exists i, v = PStr i /\ In i (map fst graph).
Proof.
  unfold first_parent, node_of.
  destruct v as [ | b | z | i | l | d]; try discriminate.
  destruct (dict_lookup graph i) as [nd|] eqn:E; [|discriminate].
  intros _. exists i. split; [reflexivity|]. eapply dict_lookup_in; eauto.
Qed.

(** From a given node there is only one chain of hops. *)
Lemma hops_deterministic (v : pyval) (c1 : list pyval) :
  hops graph v c1 -> forall c2, hops graph v c2 -> c1 = c2.
Proof.
  induction 1 as [v Hp | v Hr | v p chain Hfp Hne Hh IH]; intros c2 H2.
  - apply parentless_no_first_parent in Hp.
    inversion H2; subst; [reflexivity | congruence | congruence].
  - inversion H2 as [v' Hp | v' Hr' | v' p' chain' Hfp' Hne' Hh']; subst.
    + apply parentless_no_first_parent in Hp. congruence.
    + reflexivity.
    + rewrite Hr in Hfp'. injection Hfp' as <-. now contradiction Hne'.
  - inversion H2 as [v' Hp | v' Hr' | v' p' chain' Hfp' Hne' Hh']; subst.
    + apply parentless_no_first_parent in Hp. congruence.
    + rewrite Hfp in Hr'. injection Hr' as ->. now contradiction Hne.
    + rewrite Hfp in Hfp'. injection Hfp' as <-. f_equal. now apply IH.
  Qed.

(** Every hop of a chain leaves a different node of the graph, so a chain
    has no more hops than the graph has nodes. *)
Lemma hops_length_bound_visited (v : pyval) (chain : list pyval) :
  hops graph v chain ->
  forall visited,
    NoDup visited ->
    incl visited (map fst graph) ->
    (forall w, In w visited ->
               exists ch, hops graph (PStr w) ch
                          /\ (List.length chain < List.length ch)%nat) ->
    (List.length visited + List.length chain <= List.length graph)%nat.
Proof.
  induction 1 as [v Hp | v Hr | v p chain Hfp Hne Hh IH];
    intros visited Hnd Hincl Hlonger.
  - apply NoDup_incl_length in Hincl; auto. rewrite length_map in Hincl.
    simpl List.length. lia.
  - destruct (first_parent_key _ _ Hr) as (i & -> & Hi).
    assert (Hnew : ~ In i visited).
    { intros Hin. destruct (Hlonger _ Hin) as (ch & Hch & Hlen).
      rewrite (hops_deterministic _ _ Hch _ (hops_root graph _ Hr)) in Hlen.
      simpl List.length in Hlen. lia. }
    assert (Hnd' : NoDup (i :: visited)) by now constructor.
    assert (Hincl' : incl (i :: visited) (map fst graph)).
    { intros x [<- | Hx]; auto. }
    apply NoDup_incl_length in Hincl'; auto. rewrite length_map in Hincl'.
    simpl List.length in *. lia.
  - destruct (first_parent_key _ _ Hfp) as (i & -> & Hi).
    assert (Hfull : hops graph (PStr i) (p :: chain)) by now apply hops_step.
    assert (Hnew : ~ In i visited).
    { intros Hin. destruct (Hlonger _ Hin) as (ch & Hch & Hlen).
      rewrite (hops_deterministic _ _ Hch _ Hfull) in Hlen. lia. }
    assert (H := IH (i :: visited)).
    simpl List.length in *.
    assert ((S (List.length visited) + List.length chain <= List.length graph)%nat);
      [|lia].
    apply H.
    + now constructor.
    + intros x [<- | Hx]; auto.
    + intros w [<- | Hw].
      * exists (p :: chain). split; [exact Hfull | simpl List.length; lia].
      * destruct (Hlonger _ Hw) as (ch & Hch & Hlen). exists ch.
        split; [exact Hch | lia].
Qed.

Lemma hops_length_bound (v : pyval) (chain : list pyval) :
  hops graph v chain -> (List.length chain <= List.length graph)%nat.
Proof.
  intros H.
  apply (hops_length_bound_visited _ _ H []).
  - constructor.
  - intros x [].
  - intros w [].
Qed.

End ChainBounds.

(** The depth [get_rank_and_path] returns never exceeds the number of nodes
    of the loaded graph, and the path has at most one identifier more than
    that. *)
Theorem lineage_depth_bound
        (obo_source : nat -> exn + Graph) (fuel : nat) (st : process_state)
        (graph : Graph) (hpo_id : pyval) (depth : Z) (path : list pyval) :
  fst (load_graph obo_source st) = Returns graph ->
  fst (get_rank_and_path obo_source fuel hpo_id st) = Returns (Some depth, path) ->
  depth <= Z.of_nat (List.length graph)
  /\ (List.length path <= S (List.length graph))%nat.
Proof.
  intros Hload Hret. rewrite (lineage_unfold _ _ _ _ _ Hload) in Hret.
  destruct (node_of graph hpo_id); [|discriminate].
  destruct (rank_path_loop fuel graph hpo_id [hpo_id] 0) as [[d p] | e | ] eqn:El;
    try discriminate.
  injection Hret as <- <-.
  apply rank_path_loop_sound in El. destruct El as (chain & Hh & -> & ->).
  apply hops_length_bound in Hh.
  rewrite length_rev, length_app. simpl List.length. lia.
Qed.

Lemma lineage_depth_bound_witness :
  3 <= Z.of_nat (List.length example_graph)
  /\ (List.length [PStr "HP:0000001"; PStr "HP:0000118"; PStr "HP:0000478";
                   PStr "HP:0000508"]
      <= S (List.length example_graph))%nat.
Proof.
  apply (lineage_depth_bound (obo_always example_graph) 10 fresh_process
           example_graph (PStr "HP:0000508")); reflexivity.
Defined.

(** A lineage that is returned for some amount of fuel is returned, the
    same, for every amount of fuel above the number of nodes: a loop that
    has not stopped after one iteration per node and one more never
    returns. *)
Theorem lineage_fuel_independent
        (obo_source : nat -> exn + Graph) (fuel : nat) (st : process_state)
        (graph : Graph) (hpo_id : pyval) (r : option Z * list pyval) :
  fst (load_graph obo_source st) = Returns graph ->
  fst (get_rank_and_path obo_source fuel hpo_id st) = Returns r ->
  forall fuel',
    (List.length graph < fuel')%nat ->
    fst (get_rank_and_path obo_source fuel' hpo_id st) = Returns r.
Proof.
  intros Hload Hret fuel' Hf.
  rewrite (lineage_unfold _ fuel _ _ _ Hload) in Hret.
  rewrite (lineage_unfold _ fuel' _ _ _ Hload).
  destruct (node_of graph hpo_id); [|exact Hret].
  destruct (rank_path_loop fuel graph hpo_id [hpo_id] 0) as [[d p] | e | ] eqn:El;
    try discriminate.
  apply rank_path_loop_sound in El. destruct El as (chain & Hh & -> & ->).
  rewrite (rank_path_loop_complete _ _ _ Hh).
  - exact Hret.
  - apply hops_length_bound in Hh. lia.
Qed.

Lemma lineage_fuel_independent_witness :
  fst (get_rank_and_path (obo_always example_graph) 5 (PStr "HP:0000508")
         fresh_process)
  = Returns (Some 3, [PStr "HP:0000001"; PStr "HP:0000118"; PStr "HP:0000478";
                      PStr "HP:0000508"]).
Proof.
  apply (lineage_fuel_independent (obo_always example_graph) 3 fresh_process
           example_graph).
  - reflexivity.
  - reflexivity.
  - simpl List.length. lia.
Defined.

Lemma first_parents_only_lookup (graph : Graph) (i : string) :
  dict_lookup (first_parents_only graph) i
  = option_map keep_first_parent (dict_lookup graph i).
Proof.
  induction graph as [|[k nd] graph IH]; cbn; [reflexivity|].
  destruct (String.eqb k i); [reflexivity | exact IH].
Qed.

Lemma first_parents_only_first_parent (graph : Graph) (v : pyval) :
  first_parent (first_parents_only graph) v = first_parent graph v.
Proof.
  unfold first_parent, node_of. destruct v; try reflexivity.
  rewrite first_parents_only_lookup.
  destruct (dict_lookup graph s) as [nd|]; cbn; [|reflexivity].
  destruct (attr_is_a nd) as [[|p ps]|]; reflexivity.
Qed.

Lemma first_parents_only_loop (graph : Graph) :
  forall fuel current path depth,
    rank_path_loop fuel (first_parents_only graph) current path depth
    = rank_path_loop fuel graph current path depth.
Proof.
  induction fuel as [|fuel IH]; intros current path depth; [reflexivity|].
  rewrite !rank_path_loop_step, first_parents_only_first_parent.
  assert (Hn : node_of (first_parents_only graph) current
               = option_map keep_first_parent (node_of graph current)).
  { unfold node_of. destruct current; try reflexivity.
    apply first_parents_only_lookup. }
  rewrite Hn. destruct (node_of graph current); cbn; [|reflexivity].
  destruct (first_parent graph current) as [p|]; [|reflexivity].
  destruct (is_str p && _)%bool; [reflexivity | apply IH].
Qed.

(** Only the first listed parent counts: removing every other parent from
    every node of the ontology changes no lineage. *)
Theorem lineage_first_parent_only
        (obo_source : nat -> exn + Graph) (fuel : nat) (hpo_id : pyval) :
  fst (get_rank_and_path (map_source first_parents_only obo_source) fuel hpo_id
         fresh_process)
  = fst (get_rank_and_path obo_source fuel hpo_id fresh_process).
Proof.
  destruct (obo_source 0%nat) as [e | graph] eqn:E.
  - unfold get_rank_and_path, bind, load_graph, read_obo, map_source. cbn.
    rewrite E. reflexivity.
  - rewrite (lineage_unfold (map_source first_parents_only obo_source) fuel hpo_id
               fresh_process (first_parents_only graph))
      by (unfold load_graph, read_obo, map_source; cbn; rewrite E; reflexivity).
    rewrite (lineage_unfold obo_source fuel hpo_id fresh_process graph)
      by (unfold load_graph, read_obo; cbn; rewrite E; reflexivity).
    assert (Hn : node_of (first_parents_only graph) hpo_id
                 = option_map keep_first_parent (node_of graph hpo_id)).
    { unfold node_of. destruct hpo_id; try reflexivity.
      apply first_parents_only_lookup. }
    rewrite Hn, first_parents_only_loop.
    destruct (node_of graph hpo_id); reflexivity.
Qed.

(* ================================================================== *)
(** ** Further properties of the matching pipeline *)

Lemma resolver_state (obo_source : nat -> exn + Graph) (hpo_id : pyval)
      (st : process_state) :
  snd (get_hpo_definitions_and_synonyms obo_source hpo_id st)
  = {| obo_reads := S (obo_reads st); load_graph_cache := load_graph_cache st |}.
Proof.
  unfold get_hpo_definitions_and_synonyms, bind, read_obo.
  destruct (obo_source (obo_reads st)) as [e | graph]; [reflexivity|].
  destruct (hashable hpo_id); [|reflexivity].
  destruct (node_of graph hpo_id); reflexivity.
Qed.

(** Every tuple the pipeline returns is either the five-field tuple of the
    early return or an eight-field record for the candidate the search
    proposed, neither field of which is [None]: the symptom comes first,
    then the candidate's name and identifier as the search gave them, the
    score is the scorer's, and the status is "matched" or "not matched";
    a record with a score below 80 has a string as the candidate's name. *)
Theorem pipeline_result_shape
        (requests_get : string -> transport_error + Response)
        (extractOne_score : string -> pyval -> Z)
        (obo_source : nat -> exn + Graph)
        (str_lower : string -> string)
        (fuel : nat) (symptom : string) (st st' : process_state) (t : list pyval) :
  map_symptoms_to_hpo_pipeline requests_get extractOne_score obo_source str_lower
    fuel symptom st = (Returns t, st') ->
  t = [PStr symptom; PNone; PNone; PInt 0; PStr "not matched"]
  \/ (exists hpo_term hpo_id definition rank path status,
         map_symptoms_to_hpo requests_get symptom = Returns (hpo_term, hpo_id)
         /\ is_None hpo_term = false
         /\ is_None hpo_id = false
         /\ t = [PStr symptom; hpo_term; hpo_id; opt_str definition; opt_int rank;
                 PList path; PInt (extractOne_score symptom hpo_term); PStr status]
         /\ (status = "matched" \/ status = "not matched")
         /\ (extractOne_score symptom hpo_term < 80 -> is_str hpo_term = true)).
Proof.
  unfold map_symptoms_to_hpo_pipeline, bind, lift.
  destruct (map_symptoms_to_hpo requests_get symptom) as [[c i] | e | ];
    try discriminate.
  destruct (is_None c || is_None i)%bool eqn:En.
  - intros H. injection H as <- _. now left.
  - apply orb_false_iff in En. destruct En as [Hc Hi]. cbn.
    destruct (get_hpo_definitions_and_synonyms obo_source i st)
      as [[[synonyms definition] | e | ] st1]; try discriminate.
    destruct (get_rank_and_path obo_source fuel i st1)
      as [[[rank path] | e | ] st2]; try discriminate.
    assert (Hstr : forall ok,
               match_is_acceptable str_lower (extractOne_score symptom c) c synonyms
               = Returns ok ->
               extractOne_score symptom c < 80 -> is_str c = true).
    { intros ok. unfold match_is_acceptable, term_in_synonyms.
      destruct (80 <=? extractOne_score symptom c) eqn:E.
      - apply Z.leb_le in E. lia.
      - destruct c; try discriminate. reflexivity. }
    destruct (match_is_acceptable str_lower (extractOne_score symptom c) c synonyms)
      as [[|] | e | ] eqn:Ea; try discriminate;
      intros H; injection H as <- _; right;
      exists c, i, definition, rank, path; eexists;
      (split; [reflexivity |
       split; [exact Hc |
       split; [exact Hi |
       split; [reflexivity |
       split; [auto | exact (Hstr _ eq_refl)]]]]]).
Qed.

Lemma pipeline_result_shape_witness :
  match_record "sore eye" "Abnormality of the eye" (PStr "HP:0000478")
    (Some "Any abnormality of the eye.") (Some 2)
    [PStr "HP:0000001"; PStr "HP:0000118"; PStr "HP:0000478"] 79 "not matched"
  = [PStr "sore eye"; PNone; PNone; PInt 0; PStr "not matched"]
  \/ (exists hpo_term hpo_id definition rank path status,
         map_symptoms_to_hpo
           (service_answering
              (terms_body [term_entry "Abnormality of the eye" "HP:0000478"]))
           "sore eye"
         = Returns (hpo_term, hpo_id)
         /\ is_None hpo_term = false
         /\ is_None hpo_id = false
         /\ match_record "sore eye" "Abnormality of the eye" (PStr "HP:0000478")
              (Some "Any abnormality of the eye.") (Some 2)
              [PStr "HP:0000001"; PStr "HP:0000118"; PStr "HP:0000478"]
              79 "not matched"
            = [PStr "sore eye"; hpo_term; hpo_id; opt_str definition; opt_int rank;
               PList path; PInt (score_always 79 "sore eye" hpo_term); PStr status]
         /\ (status = "matched" \/ status = "not matched")
         /\ (score_always 79 "sore eye" hpo_term < 80 -> is_str hpo_term = true)).
Proof.
  apply (pipeline_result_shape
           (service_answering
              (terms_body [term_entry "Abnormality of the eye" "HP:0000478"]))
           (score_always 79) (obo_always example_graph) lower 10 "sore eye"
           fresh_process
           {| obo_reads := 2; load_graph_cache := Some example_graph |}).
  reflexivity.
Defined.

(** One pipeline call reads the ontology file not at all when it takes the
    early return, once when the cache of [load_graph] is filled, and twice
    when it is empty (the synonym resolver reads, then [load_graph] reads
    again); after a call that classified a candidate the cache is filled. *)
Theorem pipeline_reads
        (requests_get : string -> transport_error + Response)
        (extractOne_score : string -> pyval -> Z)
        (obo_source : nat -> exn + Graph)
        (str_lower : string -> string)
        (fuel : nat) (symptom : string) (st st' : process_state) (t : list pyval) :
  map_symptoms_to_hpo_pipeline requests_get extractOne_score obo_source str_lower
    fuel symptom st = (Returns t, st') ->
  (List.length t = 5%nat /\ st' = st)
  \/ (List.length t = 8%nat
      /\ obo_reads st'
         = (obo_reads st
            + match load_graph_cache st with Some _ => 1 | None => 2 end)%nat
      /\ load_graph_cache st' <> None).
Proof.
  unfold map_symptoms_to_hpo_pipeline, bind, lift.
  destruct (map_symptoms_to_hpo requests_get symptom) as [[c i] | e | ];
    try discriminate.
  destruct (is_None c || is_None i)%bool.
  - intros H. injection H as <- <-. now left.
  - destruct (estimate_fuzzy_score extractOne_score (PStr symptom) c)
      as [score | e | ]; try discriminate.
    pose proof (resolver_state obo_source i st) as Hst1.
    destruct (get_hpo_definitions_and_synonyms obo_source i st)
      as [[[synonyms definition] | e | ] st1]; try discriminate.
    cbn in Hst1.
    pose proof (lineage_state obo_source fuel i st1) as Hst2.
    destruct (get_rank_and_path obo_source fuel i st1)
      as [[[rank path] | e | ] st2] eqn:El; try discriminate.
    cbn in Hst2.
    assert (Hload : exists graph, fst (load_graph obo_source st1) = Returns graph).
    { revert El. unfold get_rank_and_path, bind.
      destruct (load_graph obo_source st1) as [[g | e | ] s]; try discriminate.
      intros _. now exists g. }
    destruct Hload as [graph Hload].
    assert (Hfinal : obo_reads st2
                     = (obo_reads st
                        + match load_graph_cache st with Some _ => 1 | None => 2 end)%nat
                     /\ load_graph_cache st2 <> None).
    { subst st1 st2. revert Hload. unfold load_graph, read_obo. cbn.
      destruct (load_graph_cache st) as [g|]; cbn.
      - intros _. split; [lia | discriminate].
      - destruct (obo_source (S (obo_reads st))) as [e | g]; cbn;
          [discriminate|].
        intros _. split; [lia | discriminate]. }
    destruct (match_is_acceptable str_lower score c synonyms) as [[|] | e | ];
      try discriminate;
      intros H; injection H as <- <-; right; (split; [reflexivity | exact Hfinal]).
Qed.

Lemma pipeline_reads_witness :
  (List.length
     (match_record "ptosis" "Ptosis" (PStr "HP:0000508")
        (Some "The upper eyelid margin is positioned lower than usual.")
        (Some 3)
        [PStr "HP:0000001"; PStr "HP:0000118"; PStr "HP:0000478"; PStr "HP:0000508"]
        80 "matched") = 5%nat
   /\ {| obo_reads := 2; load_graph_cache := Some example_graph |} = fresh_process)
  \/ (List.length
        (match_record "ptosis" "Ptosis" (PStr "HP:0000508")
           (Some "The upper eyelid margin is positioned lower than usual.")
           (Some 3)
           [PStr "HP:0000001"; PStr "HP:0000118"; PStr "HP:0000478";
            PStr "HP:0000508"]
           80 "matched") = 8%nat
      /\ obo_reads {| obo_reads := 2; load_graph_cache := Some example_graph |}
         = (obo_reads fresh_process
            + match load_graph_cache fresh_process with Some _ => 1 | None => 2 end)%nat
      /\ load_graph_cache {| obo_reads := 2; load_graph_cache := Some example_graph |}
         <> None).
Proof.
  apply (pipeline_reads
           (service_answering (terms_body [term_entry "Ptosis" "HP:0000508"]))
           (score_always 80) (obo_always example_graph) lower 10 "ptosis"
           fresh_process).
  reflexivity.
Defined.

(** A candidate the ontology does not know is still reported "matched"
    when its score reaches 80, with no definition, no rank and an empty
    path. *)
Theorem pipeline_unknown_id_high_score
        (requests_get : string -> transport_error + Response)
        (extractOne_score : string -> pyval -> Z)
        (obo_source : nat -> exn + Graph) (str_lower : string -> string)
        (graph : Graph)
        (fuel : nat) (symptom term i : string) (st : process_state) :
  map_symptoms_to_hpo requests_get symptom = Returns (PStr term, PStr i) ->
  (forall n, obo_source n = inr graph) ->
  load_graph_cache st = None \/ load_graph_cache st = Some graph ->
  dict_lookup graph i = None ->
  80 <= extractOne_score symptom (PStr term) ->
  fst (map_symptoms_to_hpo_pipeline requests_get extractOne_score obo_source
         str_lower fuel symptom st)
  = Returns (match_record symptom term (PStr i) None None []
               (extractOne_score symptom (PStr term)) "matched").
Proof.
  intros Hs Hsrc Hc Hi Hge.
  unfold map_symptoms_to_hpo_pipeline, bind, lift. rewrite Hs. cbn.
  unfold get_hpo_definitions_and_synonyms, bind, read_obo. rewrite Hsrc. cbn.
  rewrite Hi. cbn.
  unfold get_rank_and_path, bind, load_graph, read_obo. cbn.
  unfold match_is_acceptable. apply Z.leb_le in Hge.
  destruct Hc as [Hc | Hc]; rewrite Hc; [rewrite Hsrc|]; cbn; rewrite Hi; cbn;
    rewrite Hge; reflexivity.
Qed.

Lemma pipeline_unknown_id_high_score_witness :
  fst (map_symptoms_to_hpo_pipeline
         (service_answering (terms_body [term_entry "Ptosis" "HP:9999999"]))
         (score_always 100) (obo_always example_graph) lower 0 "ptosis"
         fresh_process)
  = Returns (match_record "ptosis" "Ptosis" (PStr "HP:9999999") None None []
               100 "matched").
Proof.
  apply (pipeline_unknown_id_high_score
           (service_answering (terms_body [term_entry "Ptosis" "HP:9999999"]))
           (score_always 100) (obo_always example_graph) lower example_graph
           0 "ptosis" "Ptosis" "HP:9999999" fresh_process).
  - reflexivity.
  - reflexivity.
  - now left.
  - reflexivity.
  - unfold score_always. lia.
Defined.

(* ================================================================== *)
(** ** Properties of the lookup helpers *)

Lemma find_lookup {A} (f : string * A -> bool) (d : list (string * A))
      (k : string) (x : A) :
  NoDup (map fst d) ->
  find f d = Some (k, x) ->
  dict_lookup d k = Some x.
Proof.
  induction d as [|[k' v] d IH]; cbn; [discriminate|].
  intros Hnd. inversion Hnd as [|? ? Hnotin Hnd']; subst.
  destruct (f (k', v)).
  - intros H. injection H as -> ->. now rewrite String.eqb_refl.
  - intros H. specialize (IH Hnd' H).
    destruct (String.eqb k' k) eqn:E; [|exact IH].
    apply String.eqb_eq in E. subst k'.
    exfalso. apply Hnotin. eapply dict_lookup_in; eauto.
Qed.

(** Looking a term up by name and then looking the found identifier up
    again gives back a name equal to the term up to letter case (the empty
    term finds a node without a name), provided both reads of the ontology
    give the same graph. *)
Theorem term_id_round_trip
        (obo_source : nat -> exn + Graph) (str_lower : string -> string)
        (graph : Graph)
        (hpo_term : string) (st : process_state) (j : string) :
  NoDup (map fst graph) ->
  obo_source (obo_reads st) = inr graph ->
  obo_source (S (obo_reads st)) = inr graph ->
  fst (get_hpo_id_from_term obo_source str_lower hpo_term st) = Returns (Some j) ->
  exists name,
    fst (get_hpo_term_from_id obo_source (PStr j)
           (snd (get_hpo_id_from_term obo_source str_lower hpo_term st)))
    = Returns name
    /\ str_lower (attr_get name "") = str_lower hpo_term.
Proof.
  intros Hnd H0 H1.
  unfold get_hpo_id_from_term, get_hpo_term_from_id, bind, read_obo.
  rewrite H0. cbn. rewrite H1. cbn.
  destruct (find _ graph) as [[k nd]|] eqn:Ef; cbn; [|discriminate].
  intros H. injection H as ->.
  rewrite (find_lookup _ _ _ _ Hnd Ef). cbn.
  exists (attr_name nd). split; [reflexivity|].
  apply find_some in Ef. destruct Ef as [_ Ef]. cbn in Ef.
  now apply String.eqb_eq in Ef.
Qed.

Lemma term_id_round_trip_witness :
  exists name,
    fst (get_hpo_term_from_id (obo_always example_graph) (PStr "HP:0000508")
           (snd (get_hpo_id_from_term (obo_always example_graph) lower "PTOSIS"
                   fresh_process)))
    = Returns name
    /\ lower (attr_get name "") = lower "PTOSIS".
Proof.
  apply (term_id_round_trip (obo_always example_graph) lower example_graph
           "PTOSIS" fresh_process "HP:0000508").
  - cbn. repeat constructor; cbn; intuition discriminate.
  - reflexivity.
  - reflexivity.
  - reflexivity.
Defined.

(** [get_hpo_id_from_term] returns [None] exactly when no node of the
    ontology has the term as its name, letter case aside (a node without a
    name counting as named by the empty string). *)
Theorem id_from_term_none_iff
        (obo_source : nat -> exn + Graph) (str_lower : string -> string)
        (graph : Graph)
        (hpo_term : string) (st : process_state) :
  obo_source (obo_reads st) = inr graph ->
  fst (get_hpo_id_from_term obo_source str_lower hpo_term st) = Returns None
  <-> (forall k nd,
          In (k, nd) graph ->
          str_lower (attr_get (attr_name nd) "") <> str_lower hpo_term).
Proof.
  intros H0. unfold get_hpo_id_from_term, bind, read_obo. rewrite H0. cbn.
  split.
  - destruct (find _ graph) as [[k' nd']|] eqn:Ef; cbn; [discriminate|].
    intros _ k nd Hin E.
    pose proof (find_none _ _ Ef _ Hin) as Hf. cbn in Hf.
    rewrite E, String.eqb_refl in Hf. discriminate.
  - intros Hall.
    destruct (find _ graph) as [[k' nd']|] eqn:Ef; cbn; [|reflexivity].
    apply find_some in Ef. destruct Ef as [Hin Ef]. cbn in Ef.
    apply String.eqb_eq in Ef. now apply Hall in Hin.
Qed.

Lemma id_from_term_none_iff_witness :
  fst (get_hpo_id_from_term (obo_always example_graph) lower "Nystagmus"
         fresh_process)
  = Returns None
  <-> (forall k nd,
          In (k, nd) example_graph ->
          lower (attr_get (attr_name nd) "") <> lower "Nystagmus").
Proof.
  apply (id_from_term_none_iff (obo_always example_graph) lower example_graph).
  reflexivity.
Defined.

(** Loading the module runs the demonstration lookup: it reads the
    ontology file once, fails with the read's error when the read fails,
    and leaves the cache of [load_graph] empty, so that the first lineage
    call afterwards reads the file again. *)
Theorem module_body_import (obo_source : nat -> exn + Graph) :
  obo_reads (snd (module_body obo_source fresh_process)) = 1%nat
  /\ load_graph_cache (snd (module_body obo_source fresh_process)) = None
  /\ (forall e, obo_source 0%nat = inl e ->
                fst (module_body obo_source fresh_process) = Raises e)
  /\ (forall graph, obo_source 0%nat = inr graph ->
        fst (module_body obo_source fresh_process)
        = Returns ("HPO ID: HP:0025142 -> HPO Term: "
                     ++ match node_of graph (PStr "HP:0025142") with
                        | Some nd => attr_get (attr_name nd) "None"
                        | None => "None"
                        end)%string)
  /\ (forall fuel hpo_id,
         obo_reads (snd (get_rank_and_path obo_source fuel hpo_id
                           (snd (module_body obo_source fresh_process))))
         = 2%nat).
Proof.
  unfold module_body, get_hpo_term_from_id, bind, read_obo. cbn.
  destruct (obo_source 0%nat) as [e | graph] eqn:E0; cbn.
  - repeat split; try reflexivity.
    + intros e' H. now injection H as ->.
    + discriminate.
    + intros fuel hpo_id. rewrite lineage_state. unfold load_graph, read_obo. cbn.
      destruct (obo_source 1%nat); reflexivity.
  - destruct (dict_lookup graph "HP:0025142") as [nd|] eqn:En; cbn.
    + repeat split; try reflexivity; try discriminate.
      * intros g Hg. injection Hg as <-. cbn. rewrite En.
        destruct (attr_name nd); reflexivity.
      * intros fuel hpo_id. rewrite lineage_state. unfold load_graph, read_obo. cbn.
        destruct (obo_source 1%nat); reflexivity.
    + repeat split; try reflexivity; try discriminate.
      * intros g Hg. injection Hg as <-. cbn. rewrite En. reflexivity.
      * intros fuel hpo_id. rewrite lineage_state. unfold load_graph, read_obo. cbn.
        destruct (obo_source 1%nat); reflexivity.
Qed.
